(** * Workout-log submission and dashboard statistics of the fitness tracker

    A shallow embedding of [src/controllers/User.js]: the handlers
    [addWorkout] and [getUserDashboard], the helper
    [calculateCaloriesBurnt], and the part of the JavaScript runtime they
    call ([String.prototype.split], [trim], [startsWith], [substring],
    [parseInt], number-to-string conversion, the product of doubles,
    [Date]); then the handlers [getWorkoutsByDate], [UserRegister] and
    [UserLogin], and the error middleware of [src/index.js].

    Conventions of the model.
    - A JavaScript string is a [string]: a sequence of code units below 256.
    - A JavaScript number is a [Number]: NaN, an infinity, or a signed
      decimal [m * 10^e], which stands for the IEEE double nearest to it.
      A number that a function takes is given by the shortest decimal of
      its double, the one the engine prints (every decimal of at most 15
      significant digits in the range of the doubles is one); [toString]
      writes that decimal.  [parseInt] and the product return the double
      they compute, rounded to nearest with ties to even, written with all
      its digits.
    - A handler is a computation in the monad [M]: it threads the handler's
      local variables, records the calls made on the collaborators ([next],
      [Workout.insertMany], [res.status(201).json]) in order, and may stop
      with a thrown exception. *)

From Stdlib Require Import String Ascii List ZArith NArith Bool Lia QArith.

Local Close Scope Q_scope.
Import ListNotations.

Local Open Scope list_scope.
Local Open Scope string_scope.

(** ** JavaScript strings *)

Module JsString.

(** WhiteSpace and LineTerminator code units below 256: TAB, LF, VT, FF, CR,
    SP and NBSP. *)
Definition is_white_space (c : ascii) : bool :=
  let n := nat_of_ascii c in
  ((9 <=? n) && (n <=? 13) || (n =? 32) || (n =? 160))%nat.

(** [s.trimStart()] *)
Fixpoint trimStart (s : string) : string :=
  match s with
  | "" => ""
  | String c r => if is_white_space c then trimStart r else s
  end.

(** [s.trimEnd()] *)
Fixpoint trimEnd (s : string) : string :=
  match s with
  | "" => ""
  | String c r =>
      match trimEnd r with
      | "" => if is_white_space c then "" else String c ""
      | r' => String c r'
      end
  end.

(** [s.trim()] *)
Definition trim (s : string) : string := trimStart (trimEnd s).

(** [s.startsWith(p)] *)
Definition startsWith (p s : string) : bool := String.prefix p s.

(** [s.substring(1)] *)
Definition substring1 (s : string) : string :=
  match s with
  | "" => ""
  | String _ r => r
  end.

(** [s.split(sep)] for a string separator.  The array it returns is never
    empty; it is built here as the first piece and the pieces after it.
    [skip] counts the code units of a matched separator still to pass. *)
Fixpoint split_from (sep : string) (skip : nat) (s : string) : string * list string :=
  match s with
  | "" => ("", [])
  | String c r =>
      match skip with
      | S k => split_from sep k r
      | O =>
          if String.prefix sep s
          then ("", let (p, ps) := split_from sep (String.length sep - 1) r in p :: ps)
          else let (p, ps) := split_from sep 0 r in (String c p, ps)
      end
  end.

Definition split (sep : string) (s : string) : list string :=
  match sep with
  | "" => map (fun c => String c "") (list_ascii_of_string s)
  | _ => let (p, ps) := split_from sep 0 s in p :: ps
  end.

End JsString.

Import JsString.

(** ** JavaScript numbers *)

Module JsNumber.

(** The value of [Finite neg m e] is [(-1)^neg * m * 10^e]; the sign is kept
    apart so that [-0] is a value, as it is in the engine. *)
Inductive Number : Type :=
| NaN
| Infinity (neg : bool)
| Finite (neg : bool) (m : N) (e : Z).

Definition of_N (n : N) : Number := Finite false n 0.

Definition of_Z (z : Z) : Number := Finite (z <? 0)%Z (Z.abs_N z) 0.

(** The integer part of [m * 10^e]. *)
Definition integer_part (m : N) (e : Z) : Z :=
  if (0 <=? e)%Z then (Z.of_N m * 10 ^ e)%Z else (Z.of_N m / 10 ^ (- e))%Z.

(** [Math.trunc]: the integer part, rounding toward zero; nothing for NaN
    and the infinities. *)
Definition trunc (x : Number) : option Z :=
  match x with
  | Finite neg m e =>
      Some (if neg then (- integer_part m e)%Z else integer_part m e)
  | _ => None
  end.

Definition isFinite (x : Number) : bool :=
  match x with
  | Finite _ _ _ => true
  | _ => false
  end.

(** *** Rounding to a double *)

(** Trailing zeros of the mantissa moved into the exponent. *)
Fixpoint strip_zeros (fuel : nat) (m : N) (e : Z) : N * Z :=
  match fuel with
  | O => (m, e)
  | S f =>
      if ((m mod 10 =? 0) && negb (m =? 0))%N
      then strip_zeros f (m / 10)%N (e + 1)%Z
      else (m, e)
  end.

(** The quotient [a / b] rounded to the nearest integer, a tie to the even
    one. *)
Definition div_nearest_even (a b : N) : N :=
  let q := (a / b)%N in
  let r := (a mod b)%N in
  if (b <? 2 * r)%N || ((2 * r =? b)%N && N.odd q) then (q + 1)%N else q.

(** The double nearest to a natural number: the number itself up to 2^53,
    above it the nearest multiple of the spacing of the doubles there, with
    53 significant bits; nothing when that is 2^1024 or more. *)
Definition round_integer (n : N) : option N :=
  if (n <=? 2 ^ 53)%N then Some n
  else
    let shift := (N.log2 n - 52)%N in
    let v := (div_nearest_even n (2 ^ shift) * 2 ^ shift)%N in
    if (2 ^ 1024 <=? v)%N then None else Some v.

(** The double nearest to [num / den], both positive: a multiple [q * 2^E]
    with [q] of 53 bits, or of fewer at the least exponent -1074. *)
Definition round_fraction (neg : bool) (num den : N) : Number :=
  let L := (Z.of_N (N.log2 num) - Z.of_N (N.log2 den))%Z in
  let lg := if (0 <=? L)%Z
            then (if (den * 2 ^ Z.to_N L <=? num)%N then L else L - 1)%Z
            else (if (den <=? num * 2 ^ Z.to_N (- L))%N then L else L - 1)%Z in
  let E := Z.max (lg - 52) (-1074) in
  if (0 <=? E)%Z then
    let v := (div_nearest_even num (den * 2 ^ Z.to_N E) * 2 ^ Z.to_N E)%N in
    if (2 ^ 1024 <=? v)%N then Infinity neg else Finite neg v 0
  else
    let q := div_nearest_even (num * 2 ^ Z.to_N (- E)) den in
    if (q =? 0)%N then Finite neg 0 0
    else
      let m := (q * 5 ^ Z.to_N (- E))%N in
      let '(s, e) := strip_zeros (S (N.to_nat (N.log2 m))) m E in
      Finite neg s e.

(** The double nearest to [(-1)^neg * m * 10^e], ties to even, written as
    the decimal it is equal to; an infinity on overflow. *)
Definition nearest_double (neg : bool) (m : N) (e : Z) : Number :=
  if (0 <=? e)%Z then
    match round_integer (m * 10 ^ Z.to_N e) with
    | Some v => Finite neg v 0
    | None => Infinity neg
    end
  else if (m =? 0)%N then Finite neg 0 0
  else round_fraction neg m (10 ^ Z.to_N (- e)).

Definition to_double (x : Number) : Number :=
  match x with
  | Finite neg m e => nearest_double neg m e
  | _ => x
  end.

(** [x * y]: the product of the two doubles, rounded to a double. *)
Definition mul (x y : Number) : Number :=
  match to_double x, to_double y with
  | NaN, _ | _, NaN => NaN
  | Infinity a, Infinity b => Infinity (xorb a b)
  | Infinity a, Finite b m _ => if (m =? 0)%N then NaN else Infinity (xorb a b)
  | Finite a m _, Infinity b => if (m =? 0)%N then NaN else Infinity (xorb a b)
  | Finite a m e, Finite b m' e' => nearest_double (xorb a b) (m * m')%N (e + e')%Z
  end.

(** *** Digits *)

(** The value of a code unit as a digit of the given radix (10 or 16). *)
Definition radix_digit (radix : N) (c : ascii) : option N :=
  let n := N_of_ascii c in
  let v := (if (48 <=? n) && (n <=? 57) then Some (n - 48)
            else if (97 <=? n) && (n <=? 122) then Some (n - 87)
            else if (65 <=? n) && (n <=? 90) then Some (n - 55)
            else None)%N in
  match v with
  | Some d => if (d <? radix)%N then Some d else None
  | None => None
  end.

Definition is_digit (c : ascii) : bool :=
  match radix_digit 10 c with
  | Some _ => true
  | None => false
  end.

(** The longest prefix of radix digits, read most significant digit first:
    the number of digits read, their value, and the text after them. *)
Fixpoint read_digits (radix : N) (count : nat) (acc : N) (s : string) : nat * N * string :=
  match s with
  | "" => (count, acc, "")
  | String c r =>
      match radix_digit radix c with
      | Some d => read_digits radix (S count) (radix * acc + d)%N r
      | None => (count, acc, s)
      end
  end.

Definition strip_sign (s : string) : bool * string :=
  match s with
  | String "-" r => (true, r)
  | String "+" r => (false, r)
  | _ => (false, s)
  end.

(** [parseInt(s)] with no radix argument: leading white space is skipped, a
    sign is read, a [0x] or [0X] prefix selects radix 16, and the longest
    prefix of digits is the result, as a double; NaN when there is no
    digit. *)
Definition parseInt (input : string) : Number :=
  let '(neg, s) := strip_sign (trimStart input) in
  let '(radix, s) :=
    match s with
    | String "0" (String "x" r) => (16%N, r)
    | String "0" (String "X" r) => (16%N, r)
    | _ => (10%N, s)
    end in
  let '(count, value, _) := read_digits radix 0 0%N s in
  match count with
  | O => NaN
  | S _ => nearest_double neg value 0
  end.

(** *** Number to string *)

Definition digit_char (d : N) : ascii := ascii_of_N (48 + d)%N.

Fixpoint digits_fuel (fuel : nat) (n : N) : string :=
  match fuel with
  | O => ""
  | S f =>
      if (n <? 10)%N then String (digit_char n) ""
      else digits_fuel f (n / 10)%N ++ String (digit_char (n mod 10)%N) ""
  end.

(** The decimal digits of a natural number, most significant first. *)
Definition digits (n : N) : string := digits_fuel (S (N.to_nat (N.log2 n))) n.

Fixpoint zeros (n : nat) : string :=
  match n with
  | O => ""
  | S k => String "0" (zeros k)
  end.

Fixpoint take (n : nat) (s : string) : string :=
  match n, s with
  | S k, String c r => String c (take k r)
  | _, _ => ""
  end.

Fixpoint drop (n : nat) (s : string) : string :=
  match n, s with
  | S k, String _ r => drop k r
  | _, _ => s
  end.

(** Number::toString(x) in radix 10, on the shortest digit string [s] of
    length [k] with [x = s * 10^(n-k)]: plain decimal notation when
    [-6 < n <= 21], exponent notation otherwise. *)
Definition toString (x : Number) : string :=
  match x with
  | NaN => "NaN"
  | Infinity neg => (if neg then "-" else "") ++ "Infinity"
  | Finite neg m e =>
      if (m =? 0)%N then "0"
      else
        let '(s, e') := strip_zeros (S (N.to_nat (N.log2 m))) m e in
        let ds := digits s in
        let k := Z.of_nat (String.length ds) in
        let n := (k + e')%Z in
        (if neg then "-" else "") ++
        (if ((k <=? n) && (n <=? 21))%Z then ds ++ zeros (Z.to_nat (n - k))
         else if ((0 <? n) && (n <=? 21))%Z
              then take (Z.to_nat n) ds ++ "." ++ drop (Z.to_nat n) ds
         else if ((-6 <? n) && (n <=? 0))%Z
              then "0." ++ zeros (Z.to_nat (- n)) ++ ds
         else
           let x := (n - 1)%Z in
           let ex := (if (x <? 0)%Z then "-" else "+") ++ digits (Z.abs_N x) in
           match ds with
           | String d "" => String d ("e" ++ ex)
           | String d r => String d ("." ++ r ++ "e" ++ ex)
           | "" => ""
           end)
  end.

(** The finite numbers that [toString] writes in plain decimal notation:
    zero, and those of magnitude at least 10^-6 and below 10^21.  With [k]
    the number of digits of [m], the magnitude [m * 10^e] lies between
    [10^(k+e-1)] and [10^(k+e)]. *)
Definition decimal_notation (x : Number) : bool :=
  match x with
  | Finite _ m e =>
      (m =? 0)%N
      || let n := (Z.of_nat (String.length (digits m)) + e)%Z in
         ((-6 <? n) && (n <=? 21))%Z
  | _ => false
  end.

End JsNumber.

Import JsNumber.

(** ** Texts

    Texts free of a character, and digit strings. *)

Module BlockFormat.

Fixpoint all_chars (p : ascii -> bool) (s : string) : bool :=
  match s with
  | "" => true
  | String c r => p c && all_chars p r
  end.

(** The character [c] does not occur in [s]. *)
Definition no_char (c : ascii) (s : string) : bool :=
  all_chars (fun a => negb (Ascii.eqb a c)) s.

Definition all_digits (s : string) : bool := all_chars is_digit s.

(** Reading digits stops at the end of the text or at a character that is
    not a digit. *)
Definition stops_reading (rest : string) : Prop :=
  match rest with
  | "" => True
  | String x _ => is_digit x = false
  end.

(** The number a string of decimal digits denotes. *)
Fixpoint dec_value (acc : N) (s : string) : N :=
  match s with
  | "" => acc
  | String c r => dec_value (10 * acc + (N_of_ascii c - 48))%N r
  end.

Definition LF : string := String (ascii_of_nat 10) "".

End BlockFormat.

Import BlockFormat.

(** ** The submission handler *)

Module Submission.

(** What a handler can throw or pass to [next]: an error made by
    [createError], a TypeError or a ReferenceError of the engine, or a
    rejection by the store. *)
Inductive Exn : Type :=
| HttpError (status : N) (message : string)
| TypeError (message : string)
| ReferenceError (message : string)
| StoreError (message : string).

(** Modelled from the spec: [createError] of [../error.js], which is not
    under src/; an error value carrying the status and the message that the
    error middleware of [src/index.js] reads back. *)
Definition createError (status : N) (message : string) : Exn :=
  HttpError status message.

(** The object built by [parseWorkoutLine]; [category] is absent until the
    handler assigns it. *)
Record Details : Type := {
  workoutName : string;
  sets : Number;
  reps : Number;
  weight : Number;
  duration : Number;
  category : option string
}.

Definition set_category (d : Details) (c : string) : Details :=
  {| workoutName := workoutName d; sets := sets d; reps := reps d;
     weight := weight d; duration := duration d; category := Some c |}.

(** An element of [workoutsToAdd]: the parsed object spread, plus
    [caloriesBurned] and [user]. *)
Record WorkoutDoc : Type := {
  details : Details;
  caloriesBurned : Number;
  user : string
}.

(** [req.user?.id] and [req.body.workoutString]. *)
Record Request : Type := {
  user_id : option string;
  workoutString : option string
}.

(** The calls a handler makes on its collaborators. *)
Inductive Event : Type :=
| Next (err : Exn)
| InsertMany (docs : list WorkoutDoc)
| Json201 (workouts : list Details).

(** The variables of [addWorkout] that the [forEach] callback assigns. *)
Record Locals : Type := {
  parsedWorkouts : list Details;
  currentCategory : string;
  count : N
}.

(** Computations of a handler: locals in, the calls made, and either a
    thrown exception or a value with the locals out. *)
Definition M (A : Type) : Type := Locals -> list Event * (Exn + A * Locals).

Definition ret {A : Type} (a : A) : M A := fun l => ([], inr (a, l)).

Definition bind {A B : Type} (m : M A) (f : A -> M B) : M B :=
  fun l =>
    match m l with
    | (t, inl e) => (t, inl e)
    | (t, inr (a, l')) => let (t', r) := f a l' in ((t ++ t')%list, r)
    end.

Definition throw {A : Type} (e : Exn) : M A := fun _ => ([], inl e).

Definition emit (ev : Event) : M unit := fun l => ([ev], inr (tt, l)).

Definition get : M Locals := fun l => ([], inr (l, l)).

Definition put (l : Locals) : M unit := fun _ => ([], inr (tt, l)).

Definition lift {A : Type} (r : Exn + A) : M A :=
  match r with
  | inl e => throw e
  | inr a => ret a
  end.

Declare Scope handler_scope.
Delimit Scope handler_scope with handler.
Notation "x <- c ;; k" := (bind c (fun x => k))
  (at level 61, c at next level, right associativity) : handler_scope.
Notation "c ;; k" := (bind c (fun _ => k))
  (at level 61, right associativity) : handler_scope.
Local Open Scope handler_scope.

(** [array.forEach(f)]: the callback runs on every element in order; only a
    thrown exception stops it. *)
Fixpoint forEach {A : Type} (f : A -> M unit) (l : list A) : M unit :=
  match l with
  | [] => ret tt
  | x :: r => f x ;; forEach f r
  end.

Definition undefined_read (prop : string) : Exn :=
  TypeError ("Cannot read properties of undefined (reading '" ++ prop ++ "')").

(** [parseWorkoutLine]: the value of the name at the call of line 249.
    The module neither declares nor imports a [parseWorkoutLine]: the only
    text of that name stands in the comment of lines 347-360.  The module
    is an ES module, so evaluating the unbound name throws a ReferenceError
    before the argument is used. *)
Definition parseWorkoutLine : Exn + (list string -> Exn + option Details) :=
  inl (ReferenceError "parseWorkoutLine is not defined").

(** [calculateCaloriesBurnt] (User.js, lines 363-368); [parseInt] of a
    number converts it to a string first, and each product is rounded to a
    double. *)
Definition calculateCaloriesBurnt (workoutDetails : Details) : Number :=
  let durationInMinutes := parseInt (toString (duration workoutDetails)) in
  let weightInKg := parseInt (toString (weight workoutDetails)) in
  let caloriesBurntPerMinute := of_N 5 in
  mul (mul durationInMinutes caloriesBurntPerMinute) weightInKg.

Definition ordinal (n : N) : string := toString (of_N n) ++ "th workout".

Definition missing_details (n : N) : Exn :=
  createError 400 ("Workout string is missing details for " ++ ordinal n).

Definition improper_format (n : N) : Exn :=
  createError 400 ("Please enter proper format for " ++ ordinal n).

(** The callback of [eachWorkout.forEach] (User.js, lines 240-259).  Each
    [return next(...)] leaves the callback, not the handler. *)
Definition eachWorkout_callback (line : string) : M unit :=
  l <- get ;;
  let n := (count l + 1)%N in
  put {| parsedWorkouts := parsedWorkouts l;
         currentCategory := currentCategory l; count := n |} ;;
  if startsWith "#" line then
    let parts := map trim (split LF line) in
    if (List.length parts <? 5)%nat then emit (Next (missing_details n))
    else
      match parts with
      | [] => throw (undefined_read "substring")
      | p0 :: _ =>
          let cat := trim (substring1 p0) in
          put {| parsedWorkouts := parsedWorkouts l;
                 currentCategory := cat; count := n |} ;;
          helper <- lift parseWorkoutLine ;;
          workoutDetails <- lift (helper parts) ;;
          match workoutDetails with
          | None => emit (Next (improper_format n))
          | Some d =>
              put {| parsedWorkouts :=
                       (parsedWorkouts l ++ [set_category d cat])%list;
                     currentCategory := cat; count := n |}
          end
      end
  else emit (Next (missing_details n)).

(** The two tests that send a segment to the "missing details" error: it
    does not start with [#], or it has fewer than five lines. *)
Definition rejected (line : string) : bool :=
  negb (startsWith "#" line)
  || (List.length (map trim (split LF line)) <? 5)%nat.

Definition bump (l : Locals) : Locals :=
  {| parsedWorkouts := parsedWorkouts l;
     currentCategory := currentCategory l; count := count l + 1 |}.

(** The ordinals [c+1, ..., c+n]. *)
Fixpoint ordinals_from (c : N) (n : nat) : list N :=
  match n with
  | O => []
  | S k => (c + 1)%N :: ordinals_from (c + 1) k
  end.

Definition initial : Locals :=
  {| parsedWorkouts := []; currentCategory := ""; count := 0 |}.

(** The parsing loop (User.js, lines 235-259): the raw string is cut at
    every [;], each segment is trimmed, and the callback runs on each. *)
Definition segments (raw : string) : list string := map trim (split ";" raw).

Definition parseWorkouts (raw : string) : M unit :=
  forEach eachWorkout_callback (segments raw).

(** [try { body } catch (err) { next(err) }], run on the initial locals:
    the calls made, in order. *)
Definition try_catch (body : M unit) : list Event :=
  match body initial with
  | (t, inl e) => (t ++ [Next e])%list
  | (t, inr _) => t
  end.

Section Handler.

(** [Workout.insertMany] of the store: [None] when the batch is accepted,
    the rejection otherwise. *)
Variable insertMany : list WorkoutDoc -> option Exn.

(** The body of the [try] block of [addWorkout] (User.js, lines 223-281). *)
Definition addWorkout_try (req : Request) : M unit :=
  match user_id req with
  | None | Some "" => emit (Next (createError 401 "Unauthorized"))
  | Some userId =>
      match workoutString req with
      | None | Some "" => emit (Next (createError 400 "Workout string is missing"))
      | Some raw =>
          parseWorkouts raw ;;
          l <- get ;;
          let workoutsToAdd :=
            map (fun workout =>
                   {| details := workout;
                      caloriesBurned := calculateCaloriesBurnt workout;
                      user := userId |}) (parsedWorkouts l) in
          if (List.length workoutsToAdd =? 0)%nat
          then emit (Next (createError 400 "No valid workouts found in the workout string"))
          else
            emit (InsertMany workoutsToAdd) ;;
            match insertMany workoutsToAdd with
            | Some e => throw e
            | None => emit (Json201 (parsedWorkouts l))
            end
      end
  end.

(** [addWorkout]: the calls it makes, in order; a thrown exception reaches
    the [catch] clause, which passes it to [next]. *)
Definition addWorkout (req : Request) : list Event :=
  try_catch (addWorkout_try req).

End Handler.

(** The errors passed to [next], in order; the first one is the one the
    error middleware answers with. *)
Fixpoint errors (t : list Event) : list Exn :=
  match t with
  | [] => []
  | Next e :: r => e :: errors r
  | _ :: r => errors r
  end.

End Submission.

Import Submission.

(** ** Dates *)

Module JsDate.

Local Open Scope Z_scope.

Definition msPerDay : Z := 86400000.

(** Day(t): the day number of a time value. *)
Definition Day (t : Z) : Z := t / msPerDay.

Definition DaysInYear (y : Z) : Z :=
  if negb (y mod 4 =? 0) then 365
  else if negb (y mod 100 =? 0) then 366
  else if negb (y mod 400 =? 0) then 365
  else 366.

Definition DayFromYear (y : Z) : Z :=
  365 * (y - 1970) + (y - 1969) / 4 - (y - 1901) / 100 + (y - 1601) / 400.

Fixpoint climb (fuel : nat) (y d : Z) : Z :=
  match fuel with
  | O => y
  | S f => if DayFromYear (y + 1) <=? d then climb f (y + 1) d else y
  end.

(** The largest year whose first day is not after day [d]: the search
    starts from a year that is not after it and climbs. *)
Definition YearFromDay (d : Z) : Z :=
  climb (Z.to_nat (Z.abs d / 100000) + 2)
        (if 0 <=? d then 1970 + d / 366 else 1970 + d / 365) d.

Definition InLeapYear (y : Z) : Z := if DaysInYear y =? 366 then 1 else 0.

Definition DayWithinYear (d : Z) : Z := d - DayFromYear (YearFromDay d).

(** MonthFromTime and DateFromTime, on day numbers. *)
Definition MonthFromDay (d : Z) : Z :=
  let w := DayWithinYear d in
  let leap := InLeapYear (YearFromDay d) in
  if w <? 31 then 0
  else if w <? 59 + leap then 1
  else if w <? 90 + leap then 2
  else if w <? 120 + leap then 3
  else if w <? 151 + leap then 4
  else if w <? 181 + leap then 5
  else if w <? 212 + leap then 6
  else if w <? 243 + leap then 7
  else if w <? 273 + leap then 8
  else if w <? 304 + leap then 9
  else if w <? 334 + leap then 10
  else 11.

Definition DateFromDay (d : Z) : Z :=
  let w := DayWithinYear d in
  let leap := InLeapYear (YearFromDay d) in
  match MonthFromDay d with
  | 0 => w + 1
  | 1 => w - 30
  | 2 => w - 58 - leap
  | 3 => w - 89 - leap
  | 4 => w - 119 - leap
  | 5 => w - 150 - leap
  | 6 => w - 180 - leap
  | 7 => w - 211 - leap
  | 8 => w - 242 - leap
  | 9 => w - 272 - leap
  | 10 => w - 303 - leap
  | _ => w - 333 - leap
  end.

(** The number of days of the year before month [mn] (0 to 11). *)
Definition DaysBeforeMonth (mn leap : Z) : Z :=
  match mn with
  | 0 => 0
  | 1 => 31
  | 2 => 59 + leap
  | 3 => 90 + leap
  | 4 => 120 + leap
  | 5 => 151 + leap
  | 6 => 181 + leap
  | 7 => 212 + leap
  | 8 => 243 + leap
  | 9 => 273 + leap
  | 10 => 304 + leap
  | _ => 334 + leap
  end.

(** MakeDay(year, month, date): months and dates out of range carry over. *)
Definition MakeDay (year month date : Z) : Z :=
  let ym := year + month / 12 in
  let mn := month mod 12 in
  DayFromYear ym + DaysBeforeMonth mn (InLeapYear ym) + date - 1.

Section LocalTime.

(** The offset of local time from UTC, in milliseconds; it is taken to be
    the same at every instant (no daylight-saving change). *)
Variable tza : Z.

(** A Date object is its time value, in milliseconds since the epoch. *)
Definition getFullYear (t : Z) : Z := YearFromDay (Day (t + tza)).
Definition getMonth (t : Z) : Z := MonthFromDay (Day (t + tza)).
Definition getDate (t : Z) : Z := DateFromDay (Day (t + tza)).

(** [new Date(year, month, date)]: local midnight of that day; a year from
    0 to 99 stands for 1900 + year. *)
Definition newDate (year month date : Z) : Z :=
  let yr := if (0 <=? year) && (year <=? 99) then 1900 + year else year in
  MakeDay yr month date * msPerDay - tza.

End LocalTime.

End JsDate.

Import JsDate.

(** ** The dashboard handler

    The store is a list of documents and its queries are pure functions of
    it: a query does not fail, and the queries of one request see the same
    documents. *)

Module Dashboard.

(** Modelled from the spec: the documents of [../models/Workout.js], which
    is not under src/; the fields the dashboard reads, with
    [caloriesBurned] an integer and [date] a time value. *)
Record Workout : Type := {
  user : string;
  category : string;
  caloriesBurned : Z;
  date : Z
}.

(** The collections behind [User] and [Workout]: the ids of the users and
    the stored workouts. *)
Record Db : Type := {
  users : list string;
  workouts : list Workout
}.

(** [User.findById(userId)] *)
Definition findById (db : Db) (userId : option string) : option string :=
  match userId with
  | Some id => if existsb (String.eqb id) (users db) then Some id else None
  | None => None
  end.

(** The documents selected by
    [{ user: id, date: { $gte: start, $lt: end } }]. *)
Definition matching (db : Db) (id : string) (start stop : Z) : list Workout :=
  filter (fun w => String.eqb (user w) id && (start <=? date w)%Z && (date w <? stop)%Z)
         (workouts db).

Definition sum_calories (ws : list Workout) : Z :=
  fold_left (fun acc w => (acc + caloriesBurned w)%Z) ws 0%Z.

(** [$group] with [_id: null]: one group when a document matched, none
    otherwise. *)
Definition group_all (ws : list Workout) : list Z :=
  match ws with
  | [] => []
  | _ => [sum_calories ws]
  end.

(** Groups kept in ascending order of their key, as after [$sort: {_id: 1}]. *)
Fixpoint group_insert (k : string) (v : Z) (gs : list (string * Z)) : list (string * Z) :=
  match gs with
  | [] => [(k, v)]
  | (k', v') :: r =>
      match String.compare k k' with
      | Eq => (k', (v' + v)%Z) :: r
      | Lt => (k, v) :: gs
      | Gt => (k', v') :: group_insert k v r
      end
  end.

Definition pad (width : nat) (n : Z) : string :=
  let ds := digits (Z.to_N n) in
  zeros (width - String.length ds) ++ ds.

(** [$dateToString] with format ["%Y-%m-%d"]: the UTC date of a time value. *)
Definition dateToString (t : Z) : string :=
  let d := Day t in
  pad 4 (YearFromDay d) ++ "-" ++ pad 2 (MonthFromDay d + 1) ++ "-" ++ pad 2 (DateFromDay d).

(** [$group] by the UTC date string, then [$sort] by it. *)
Definition group_by_date (ws : list Workout) : list (string * Z) :=
  fold_left (fun gs w => group_insert (dateToString (date w)) (caloriesBurned w) gs) ws [].

(** Whether all the documents fall on one UTC date. *)
Definition one_utc_date (ws : list Workout) : bool :=
  match ws with
  | [] => true
  | w :: r =>
      forallb (fun w' => String.eqb (dateToString (date w')) (dateToString (date w))) r
  end.

(** [$group] by category; the groups are taken in order of first
    occurrence. *)
Fixpoint category_insert (k : string) (v : Z) (gs : list (string * Z)) : list (string * Z) :=
  match gs with
  | [] => [(k, v)]
  | (k', v') :: r =>
      if String.eqb k k' then (k', (v' + v)%Z) :: r
      else (k', v') :: category_insert k v r
  end.

Definition group_by_category (ws : list Workout) : list (string * Z) :=
  fold_left (fun gs w => category_insert (category w) (caloriesBurned w) gs) ws [].

(** The result of [a / b] on integers. *)
Inductive Quotient : Type :=
| QNaN
| QInfinity (neg : bool)
| QFinite (q : Q).

Definition div (a b : Z) : Quotient :=
  if (b =? 0)%Z then
    if (a =? 0)%Z then QNaN else QInfinity (a <? 0)%Z
  else QFinite (Qred (Qmake (Z.sgn b * a) (Z.to_pos (Z.abs b)))).

Record PieSlice : Type := {
  id : nat;
  value : Z;
  label : string
}.

Record DashboardResult : Type := {
  totalCaloriesBurnt : Z;
  totalWorkouts : Z;
  avgCaloriesBurntPerWorkout : Quotient;
  weeks : list string;
  weekCaloriesBurned : list Z;
  pieChartData : list PieSlice
}.

Inductive Response : Type :=
| NextError (status : N) (message : string)
| Json200 (body : DashboardResult).

Fixpoint index_from {A : Type} (i : nat) (l : list A) : list (nat * A) :=
  match l with
  | [] => []
  | x :: r => (i, x) :: index_from (S i) r
  end.

Section Handler.

Variable tza : Z.

(** [weekData[0]?.totalCaloriesBurnt ? weekData[0]?.totalCaloriesBurnt : 0] *)
Definition first_total (weekData : list (string * Z)) : Z :=
  match weekData with
  | [] => 0%Z
  | (_, total) :: _ => if (total =? 0)%Z then 0%Z else total
  end.

(** The stored workouts of a user in the local calendar day of day number
    [d]: from local midnight to the next local midnight. *)
Definition entries_of_day (db : Db) (id : string) (d : Z) : list Workout :=
  matching db id (d * msPerDay - tza)%Z ((d + 1) * msPerDay - tza)%Z.

(** One turn of the loop [for (let i = 6; i >= 0; i--)] (User.js, lines
    129-167): the label pushed on [weeks] and the value pushed on
    [caloriesBurnt]. *)
Definition week_turn (db : Db) (id : string) (now : Z) (i : Z) : string * Z :=
  let date := (now - i * 24 * 60 * 60 * 1000)%Z in
  let label := toString (of_Z (getDate tza date)) ++ "th" in
  let startOfDay := newDate tza (getFullYear tza date) (getMonth tza date) (getDate tza date) in
  let endOfDay := newDate tza (getFullYear tza date) (getMonth tza date) (getDate tza date + 1) in
  let weekData := group_by_date (matching db id startOfDay endOfDay) in
  (label, first_total weekData).

(** [getUserDashboard] (User.js, lines 65-185), at the instant [now]. *)
Definition getUserDashboard (db : Db) (now : Z) (userId : option string) : Response :=
  match findById db userId with
  | None => NextError 404 "User not found"
  | Some id =>
      let startToday := newDate tza (getFullYear tza now) (getMonth tza now) (getDate tza now) in
      let endToday := newDate tza (getFullYear tza now) (getMonth tza now) (getDate tza now + 1) in
      let totalCaloriesBurnt := group_all (matching db id startToday endToday) in
      let totalWorkouts := Z.of_nat (List.length (matching db id startToday endToday)) in
      let avgCaloriesBurntPerWorkout :=
        match totalCaloriesBurnt with
        | total :: _ => div total totalWorkouts
        | [] => QFinite 0
        end in
      let categoryCalories := group_by_category (matching db id startToday endToday) in
      let pieChartData :=
        map (fun ic => {| id := fst ic; value := snd (snd ic); label := fst (snd ic) |})
            (index_from 0 categoryCalories) in
      let turns := map (week_turn db id now) [6; 5; 4; 3; 2; 1; 0]%Z in
      Json200
        {| totalCaloriesBurnt := match totalCaloriesBurnt with
                                 | total :: _ => total
                                 | [] => 0%Z
                                 end;
           totalWorkouts := totalWorkouts;
           avgCaloriesBurntPerWorkout := avgCaloriesBurntPerWorkout;
           weeks := map fst turns;
           weekCaloriesBurned := map snd turns;
           pieChartData := pieChartData |}
  end.

End Handler.

End Dashboard.

Import Dashboard.

(** ** Sample inputs *)

Module Samples.

Definition accept : list WorkoutDoc -> option Exn := fun _ => None.

Definition submit (raw : string) : Request :=
  {| user_id := Some "u1"; workoutString := Some raw |}.

Definition block (cat name setsreps kg min : string) : string :=
  "#" ++ cat ++ LF ++ "#" ++ name ++ LF ++ "#" ++ setsreps ++ LF
  ++ "#" ++ kg ++ LF ++ "#" ++ min.

(** Five blocks; the third has four lines only. *)
Definition five_blocks : string :=
  block "Legs" "Squat" "3sets12reps" "72kg" "30min" ++ ";" ++
  block "Legs" "Lunge" "3sets10reps" "20kg" "15min" ++ ";" ++
  "#Back" ++ LF ++ "#Row" ++ LF ++ "#3sets10reps" ++ LF ++ "#40kg" ++ ";" ++
  block "Arms" "Curl" "4sets12reps" "10kg" "10min" ++ ";" ++
  block "Abs" "Plank" "3sets15reps" "70kg" "5min".

(** The five-line block of the format of the specification. *)
Definition spec_block : string :=
  block "Legs" "Squat" "3sets12reps" "72kg" "30min".

(** A block whose weight line lacks its [#]. *)
Definition unmarked_weight : string :=
  "#Legs" ++ LF ++ "#Squat" ++ LF ++ "#3sets12reps" ++ LF ++ "72kg" ++ LF ++ "#30min".

(** A block whose weight text is not a number. *)
Definition bad_weight : string :=
  block "Legs" "Squat" "3sets12reps" "abckg" "30min".

(** A segment that is empty, then a block of the format of the
    specification. *)
Definition leading_separator : string :=
  ";" ++ block "Legs" "Squat" "3sets12reps" "72kg" "30min".

(** Two segments that do not start with [#], then a block of four
    lines. *)
Definition four_lines_third : string :=
  "Squat" ++ ";" ++ "" ++ ";" ++
  "#Back" ++ LF ++ "#Row" ++ LF ++ "#3sets10reps" ++ LF ++ "#40kg".

(** The entry of the specification's example: 72.9 kg for 30.7 minutes. *)
Definition spec_entry : Details :=
  {| workoutName := "Squat"; sets := of_N 3; reps := of_N 12;
     weight := Finite false 729 (-1); duration := Finite false 307 (-1);
     Submission.category := Some "Legs" |}.

(** An entry with a duration of half a microminute, 0.0000005. *)
Definition tiny_duration : Details :=
  {| workoutName := "Squat"; sets := of_N 3; reps := of_N 12;
     weight := Finite false 72 0; duration := Finite false 5 (-7);
     Submission.category := Some "Legs" |}.

(** An entry of 99999999999 kg for 99999999999 minutes: the product is
    above 2^53. *)
Definition huge_entry : Details :=
  {| workoutName := "Squat"; sets := of_N 3; reps := of_N 12;
     weight := Finite false 99999999999 0; duration := Finite false 99999999999 0;
     Submission.category := Some "Legs" |}.

(** 1 March 2024, 00:30 UTC. *)
Definition march_first : Z := 1709253000000.

(** Two workouts of user u1 on 1 March 2024 (UTC), one the evening before,
    and one of another user. *)
Definition sample_db : Db :=
  {| users := ["u1"; "u2"];
     workouts :=
       [ {| Dashboard.user := "u1"; Dashboard.category := "Legs";
            Dashboard.caloriesBurned := 300; date := march_first |};
         {| Dashboard.user := "u1"; Dashboard.category := "Arms";
            Dashboard.caloriesBurned := 200; date := march_first + 3600000 |};
         {| Dashboard.user := "u2"; Dashboard.category := "Arms";
            Dashboard.caloriesBurned := 250; date := march_first + 3600000 |};
         {| Dashboard.user := "u1"; Dashboard.category := "Arms";
            Dashboard.caloriesBurned := 70; date := march_first - 3600000 |} ] |}.

Definition empty_db : Db := {| users := ["u1"]; workouts := [] |}.

End Samples.

Import Samples.

(** ** The day listing handler *)

Module DayListing.

Record Listing : Type := {
  todaysWorkouts : list Workout;
  totalCaloriesBurnt : Z
}.

Inductive Response : Type :=
| NextError (status : N) (message : string)
| Json200 (body : Listing).

Section Handler.

Variable tza : Z.

(** [getWorkoutsByDate] (User.js, lines 187-220), at the instant [now].
    [queryDate] is the time value of [new Date(req.query.date)] when the
    request has a date, which is taken to be a valid one. *)
Definition getWorkoutsByDate (db : Db) (now : Z) (userId : option string)
           (queryDate : option Z) : Response :=
  let user := findById db userId in
  let date := match queryDate with
              | Some t => t
              | None => now
              end in
  match user with
  | None => NextError 404 "User not found"
  | Some id =>
      let startOfDay := newDate tza (getFullYear tza date) (getMonth tza date) (getDate tza date) in
      let endOfDay := newDate tza (getFullYear tza date) (getMonth tza date) (getDate tza date + 1) in
      let todaysWorkouts := matching db id startOfDay endOfDay in
      let totalCaloriesBurnt :=
        fold_left (fun total workout => (total + Dashboard.caloriesBurned workout)%Z)
                  todaysWorkouts 0%Z in
      Json200 {| todaysWorkouts := todaysWorkouts; totalCaloriesBurnt := totalCaloriesBurnt |}
  end.

End Handler.

End DayListing.

(** ** The error middleware *)

Module ErrorMiddleware.

(** The body of the answer; its [status] is also the status of the HTTP
    answer. *)
Record Answer : Type := {
  success : bool;
  status : N;
  message : string
}.

(** [err.status] and [err.message]: an error made by [createError] carries
    both, an exception of the engine or of the store only a message. *)
Definition err_status (err : Exn) : option N :=
  match err with
  | HttpError s _ => Some s
  | _ => None
  end.

Definition err_message (err : Exn) : string :=
  match err with
  | HttpError _ m => m
  | TypeError m => m
  | ReferenceError m => m
  | StoreError m => m
  end.

(** The error handler of [src/index.js], lines 17-25. *)
Definition errorHandler (err : Exn) : Answer :=
  let status := match err_status err with
                | Some 0%N | None => 500%N
                | Some s => s
                end in
  let message := match err_message err with
                 | "" => "Something went wrong"
                 | m => m
                 end in
  {| success := false; status := status; message := message |}.

End ErrorMiddleware.

(** ** Registration and login

    Modelled from the spec: the documents of [../models/User.js], which is
    not under src/, with the fields the two handlers read and write.  The
    functions of bcryptjs and jsonwebtoken are parameters; the salt, the
    [_id] of a new document and the time of the request are inputs; [save]
    is taken to succeed. *)

Module Auth.

Record User : Type := {
  _id : string;
  name : string;
  email : string;
  password : string;
  img : string
}.

Record RegisterBody : Type := {
  reg_email : string;
  reg_password : string;
  reg_name : string;
  reg_img : string
}.

Record LoginBody : Type := {
  login_email : string;
  login_password : string
}.

Inductive Response : Type :=
| NextError (status : N) (message : string)
| Json200 (token : string) (user : User).

(** [User.findOne({ email })]: the first document with that email. *)
Definition findOne (users : list User) (e : string) : option User :=
  find (fun u => String.eqb (email u) e) users.

Section Crypto.

(** [bcrypt.hashSync(password, salt)], [bcrypt.compareSync(password, hash)]
    and [jwt.sign({ id }, process.env.JWT, { expiresIn })]; the token
    carries the time of signing, so [sign] takes the id and that time. *)
Variable hashSync : string -> string -> string.
Variable compareSync : string -> string -> bool.
Variable sign : string -> Z -> string.

(** [UserRegister] (User.js, lines 10-37), at the instant [now]: the answer
    and the collection after the request. *)
Definition UserRegister (users : list User) (salt id : string) (now : Z)
           (body : RegisterBody) : Response * list User :=
  match findOne users (reg_email body) with
  | Some _ => (NextError 409 "Email is already in use.", users)
  | None =>
      let hashedPassword := hashSync (reg_password body) salt in
      let user := {| _id := id; name := reg_name body; email := reg_email body;
                     password := hashedPassword; img := reg_img body |} in
      (Json200 (sign id now) user, (users ++ [user])%list)
  end.

(** [UserLogin] (User.js, lines 39-63), at the instant [now]. *)
Definition UserLogin (users : list User) (now : Z) (body : LoginBody) : Response :=
  match findOne users (login_email body) with
  | None => NextError 404 "User not found"
  | Some user =>
      if compareSync (login_password body) (password user)
      then Json200 (sign (_id user) now) user
      else NextError 403 "Incorrect password"
  end.

End Crypto.

End Auth.

(** ** Joining, counting and grouping *)

Module Occurrence.

(** [pieces.join(sep)] *)
Fixpoint join (sep : string) (pieces : list string) : string :=
  match pieces with
  | [] => ""
  | [p] => p
  | p :: r => p ++ sep ++ join sep r
  end.

(** How many times the character [c] occurs in [s]. *)
Fixpoint count_char (c : ascii) (s : string) : nat :=
  match s with
  | "" => O
  | String a r => if Ascii.eqb a c then S (count_char c r) else count_char c r
  end.

(** The first significant digit of a natural number. *)
Definition leading_digit (m : N) : N :=
  (m / 10 ^ N.of_nat (String.length (digits m) - 1))%N.

(** The calories of the workouts of one category. *)
Definition category_total (c : string) (ws : list Workout) : Z :=
  sum_calories (filter (fun w => String.eqb (Dashboard.category w) c) ws).

(** The workout is one of the user [id] and its local day is [d]. *)
Definition on_day (tza : Z) (id : string) (d : Z) (w : Workout) : bool :=
  String.eqb (Dashboard.user w) id && (Day (date w + tza) =? d)%Z.

(** The workout is one of the user [id] and its local day is one of the
    seven that end with the local day of [now]. *)
Definition in_week (tza : Z) (id : string) (now : Z) (w : Workout) : bool :=
  String.eqb (Dashboard.user w) id
  && (Day (now + tza) - 6 <=? Day (date w + tza))%Z
  && (Day (date w + tza) <=? Day (now + tza))%Z.

(** The segments before the first one that passes the two tests of the
    callback. *)
Fixpoint rejected_prefix (segs : list string) : list string :=
  match segs with
  | seg :: r => if rejected seg then seg :: rejected_prefix r else []
  | [] => []
  end.

(** The errors that [addWorkout] makes itself or that the engine raises in
    it: the five of lines 227 to 268 and the ReferenceError of line 249. *)
Definition handler_error (e : Exn) : Prop :=
  e = createError 401 "Unauthorized"
  \/ e = createError 400 "Workout string is missing"
  \/ (exists n, e = missing_details n)
  \/ e = ReferenceError "parseWorkoutLine is not defined"
  \/ e = createError 400 "No valid workouts found in the workout string".

End Occurrence.

Import Occurrence.

(** ** More sample inputs *)

Module MoreSamples.

(** Stand-ins for the hash, the comparison and the token. *)
Definition plain_hash (password salt : string) : string := password.

Definition plain_compare (password hash : string) : bool := String.eqb password hash.

Definition plain_sign (id : string) (time : Z) : string :=
  "token:" ++ id ++ "@" ++ toString (of_Z time).

Definition ann : Auth.User :=
  {| Auth._id := "id1"; Auth.name := "Ann"; Auth.email := "ann@example.org";
     Auth.password := plain_hash "secret" "salt1"; Auth.img := "" |}.

Definition bob_registers : Auth.RegisterBody :=
  {| Auth.reg_email := "bob@example.org"; Auth.reg_password := "hunter2";
     Auth.reg_name := "Bob"; Auth.reg_img := "" |}.

End MoreSamples.

Import MoreSamples.

(** * Properties *)

(** ** The parsing loop *)

Section Loop.

Local Open Scope N_scope.

Ltac run_monad :=
  cbv beta iota zeta delta
      [eachWorkout_callback parseWorkoutLine bind get put emit lift throw ret].

(** A segment that fails one of the two tests is reported and counted. *)
Lemma callback_rejected (line : string) (l : Locals) :
  rejected line = true ->
  eachWorkout_callback line l = ([Next (missing_details (count l + 1))], inr (tt, bump l)).
Proof.
  unfold rejected. run_monad.
  destruct (startsWith "#" line); [|reflexivity].
  cbv beta iota delta [negb orb]. intros ->. reflexivity.
Qed.

(** A segment that passes the two tests reaches the call of line 249, which
    throws: no call is made and the exception leaves the callback. *)
Lemma callback_accepted (line : string) (l : Locals) :
  rejected line = false ->
  eachWorkout_callback line l
  = ([], inl (ReferenceError "parseWorkoutLine is not defined")).
Proof.
  unfold rejected. run_monad.
  destruct (startsWith "#" line); [|discriminate].
  cbv beta iota delta [negb orb]. intros H. rewrite H.
  destruct (map trim (split LF line)) as [|p0 ps]; [discriminate H | reflexivity].
Qed.

Lemma forEach_app {A : Type} (f : A -> M unit) (a b : list A) (l : Locals) :
  forEach f (a ++ b)%list l = bind (forEach f a) (fun _ => forEach f b) l.
Proof.
  revert l. induction a as [|x a IH]; intros l; simpl.
  - unfold bind, ret. simpl. destruct (forEach f b l) as [t r]. reflexivity.
  - unfold bind in *. destruct (f x l) as [t [e|[u l1]]]; [reflexivity|].
    rewrite IH. destruct (forEach f a l1) as [t1 [e|[u1 l2]]]; simpl.
    + reflexivity.
    + destruct (forEach f b l2) as [t2 r2]. rewrite app_assoc. reflexivity.
Qed.

Lemma errors_app (a b : list Event) : errors (a ++ b) = (errors a ++ errors b)%list.
Proof.
  induction a as [|[e|d|w] a IH]; simpl; rewrite ?IH; reflexivity.
Qed.

Lemma try_catch_throws {A : Type} (m : M A) (k : A -> M unit) (t : list Event) (e : Exn) :
  m initial = (t, inl e) -> try_catch (bind m k) = (t ++ [Next e])%list.
Proof.
  intros H. unfold try_catch, bind. rewrite H. reflexivity.
Qed.

(** A submission with a user id and a non-empty string runs the loop. *)
Lemma addWorkout_runs_loop insertMany (uid raw : string) :
  uid <> "" -> raw <> "" ->
  exists k,
    addWorkout insertMany {| user_id := Some uid; workoutString := Some raw |}
    = try_catch (bind (parseWorkouts raw) k).
Proof.
  intros Hu Hr. unfold addWorkout, addWorkout_try.
  cbv beta iota delta [user_id workoutString].
  destruct uid as [|c u]; [congruence|]. destruct raw as [|c' r]; [congruence|].
  eexists. reflexivity.
Qed.

(** A loop over rejected segments reports every one of them, in order, and
    returns with no entry added. *)
Lemma forEach_rejected_segments (segs : list string) (l : Locals) :
  forallb rejected segs = true ->
  forEach eachWorkout_callback segs l
  = (map (fun j => Next (missing_details j)) (ordinals_from (count l) (List.length segs)),
     inr (tt, {| parsedWorkouts := parsedWorkouts l;
                 currentCategory := currentCategory l;
                 count := count l + N.of_nat (List.length segs) |})).
Proof.
  revert l. induction segs as [|x segs IH]; intros l H.
  - simpl. unfold ret. rewrite N.add_0_r. destruct l; reflexivity.
  - simpl in H. apply andb_prop in H. destruct H as [Hx Hs].
    cbn [forEach]. unfold bind. rewrite (callback_rejected x l Hx).
    rewrite (IH (bump l) Hs).
    cbn [List.length map ordinals_from bump count parsedWorkouts currentCategory].
    replace (count l + N.of_nat (S (List.length segs)))
      with (count l + 1 + N.of_nat (List.length segs)) by lia.
    reflexivity.
Qed.

(** A loop over empty segments reports every one of them. *)
Lemma forEach_empty_segments (segs : list string) (l : Locals) :
  forallb (String.eqb "") segs = true ->
  forEach eachWorkout_callback segs l
  = (map (fun j => Next (missing_details j)) (ordinals_from (count l) (List.length segs)),
     inr (tt, {| parsedWorkouts := parsedWorkouts l;
                 currentCategory := currentCategory l;
                 count := count l + N.of_nat (List.length segs) |})).
Proof.
  intros H. apply forEach_rejected_segments.
  apply forallb_forall. intros x Hx.
  rewrite forallb_forall in H. specialize (H x Hx).
  apply String.eqb_eq in H. subst x. reflexivity.
Qed.

(** The first segment that passes the two tests ends the loop: the segments
    before it have been reported, and the exception leaves the loop. *)
Lemma forEach_first_accepted (pre post : list string) (seg : string) (l : Locals) :
  forallb rejected pre = true ->
  rejected seg = false ->
  forEach eachWorkout_callback (pre ++ seg :: post)%list l
  = (map (fun j => Next (missing_details j)) (ordinals_from (count l) (List.length pre)),
     inl (ReferenceError "parseWorkoutLine is not defined")).
Proof.
  intros Hpre Hseg. rewrite forEach_app. unfold bind.
  rewrite (forEach_rejected_segments pre l Hpre). cbn [forEach]. unfold bind.
  rewrite (callback_accepted seg _ Hseg). rewrite app_nil_r. reflexivity.
Qed.

(** Every list of segments is its rejected prefix alone, or its rejected
    prefix followed by a segment that passes the two tests. *)
Lemma rejected_prefix_split (segs : list string) :
  (segs = rejected_prefix segs /\ forallb rejected segs = true)
  \/ exists seg post,
       segs = (rejected_prefix segs ++ seg :: post)%list /\ rejected seg = false.
Proof.
  induction segs as [|x segs IH]; [left; split; reflexivity|].
  cbn [rejected_prefix forallb]. destruct (rejected x) eqn:Hx.
  - destruct IH as [[H1 H2]|(seg & post & H1 & H2)].
    + left. split; [f_equal; exact H1 | exact H2].
    + right. exists seg, post. split; [cbn [app]; f_equal; exact H1 | exact H2].
  - right. exists x, segs. split; [reflexivity | exact Hx].
Qed.

Lemma rejected_prefix_rejected (segs : list string) :
  forallb rejected (rejected_prefix segs) = true.
Proof.
  induction segs as [|x segs IH]; [reflexivity|]. cbn [rejected_prefix].
  destruct (rejected x) eqn:Hx; [|reflexivity]. cbn [forallb]. rewrite Hx. exact IH.
Qed.

End Loop.

(** ** The submission handler, case by case *)

Section HandlerCases.

Local Open Scope N_scope.

Variable insertMany : list WorkoutDoc -> option Exn.

(** When every segment is rejected, the handler reports each of them and
    then finds no entry. *)
Lemma addWorkout_all_rejected (uid raw : string) :
  uid <> "" -> raw <> "" ->
  forallb rejected (segments raw) = true ->
  addWorkout insertMany {| user_id := Some uid; workoutString := Some raw |}
  = (map (fun j => Next (missing_details j)) (ordinals_from 0 (List.length (segments raw)))
     ++ [Next (createError 400 "No valid workouts found in the workout string")])%list.
Proof.
  intros Hu Hr Hall. unfold addWorkout, addWorkout_try.
  cbv beta iota delta [user_id workoutString].
  destruct uid as [|c u]; [congruence|]. destruct raw as [|c' r]; [congruence|].
  unfold try_catch, bind, parseWorkouts.
  rewrite (forEach_rejected_segments _ initial Hall). reflexivity.
Qed.

(** When a segment passes the two tests, the handler reports the segments
    before it and then passes the ReferenceError to [next]. *)
Lemma addWorkout_first_accepted (uid raw : string) (pre post : list string) (seg : string) :
  uid <> "" -> raw <> "" ->
  segments raw = (pre ++ seg :: post)%list ->
  forallb rejected pre = true ->
  rejected seg = false ->
  addWorkout insertMany {| user_id := Some uid; workoutString := Some raw |}
  = (map (fun j => Next (missing_details j)) (ordinals_from 0 (List.length pre))
     ++ [Next (ReferenceError "parseWorkoutLine is not defined")])%list.
Proof.
  intros Hu Hr Hsegs Hpre Hseg.
  destruct (addWorkout_runs_loop insertMany uid raw Hu Hr) as [k Hk]. rewrite Hk.
  apply try_catch_throws. unfold parseWorkouts. rewrite Hsegs.
  exact (forEach_first_accepted pre post seg initial Hpre Hseg).
Qed.

(** Every run of the handler is a list of calls of [next], at least one,
    each with an error of the handler's own or the ReferenceError. *)
Lemma addWorkout_cases (req : Request) :
  exists errs,
    errs <> [] /\ Forall handler_error errs
    /\ addWorkout insertMany req = map Next errs.
Proof.
  assert (Hmissing : forall c n,
             Forall handler_error (map missing_details (ordinals_from c n))).
  { intros c n. revert c. induction n as [|n IH]; intros c; cbn [ordinals_from map].
    - constructor.
    - constructor; [right; right; left; eexists; reflexivity | apply IH]. }
  assert (Hshape : forall (es : list Exn) (e : Exn),
             handler_error e -> Forall handler_error es ->
             (es ++ [e])%list <> [] /\ Forall handler_error (es ++ [e])%list).
  { intros es e He Hes. split.
    - intros H. apply app_eq_nil in H. destruct H as [_ H]. discriminate H.
    - apply Forall_app. split; [exact Hes | constructor; [exact He | constructor]]. }
  destruct req as [[uid|] ws].
  2:{ exists [createError 401 "Unauthorized"].
      repeat split; [discriminate | constructor; [left; reflexivity | constructor]]. }
  destruct uid as [|c u].
  { exists [createError 401 "Unauthorized"].
    repeat split; [discriminate | constructor; [left; reflexivity | constructor]]. }
  destruct ws as [raw|].
  2:{ exists [createError 400 "Workout string is missing"].
      repeat split; [discriminate | constructor; [right; left; reflexivity | constructor]]. }
  destruct raw as [|c' r].
  { exists [createError 400 "Workout string is missing"].
    repeat split; [discriminate | constructor; [right; left; reflexivity | constructor]]. }
  set (uid := String c u). set (raw := String c' r).
  assert (Hu : uid <> "") by discriminate. assert (Hr : raw <> "") by discriminate.
  destruct (rejected_prefix_split (segments raw)) as [[_ Hall]|(seg & post & Hsegs & Hseg)].
  - exists (map missing_details (ordinals_from 0 (List.length (segments raw)))
            ++ [createError 400 "No valid workouts found in the workout string"])%list.
    destruct (Hshape (map missing_details (ordinals_from 0 (List.length (segments raw))))
                     (createError 400 "No valid workouts found in the workout string"))
      as [H1 H2]; [right; right; right; right; reflexivity | apply Hmissing |].
    split; [exact H1|]. split; [exact H2|].
    rewrite (addWorkout_all_rejected uid raw Hu Hr Hall), map_app, map_map. reflexivity.
  - exists (map missing_details
                (ordinals_from 0 (List.length (rejected_prefix (segments raw))))
            ++ [ReferenceError "parseWorkoutLine is not defined"])%list.
    destruct (Hshape (map missing_details
                          (ordinals_from 0 (List.length (rejected_prefix (segments raw)))))
                     (ReferenceError "parseWorkoutLine is not defined"))
      as [H1 H2]; [right; right; right; left; reflexivity | apply Hmissing |].
    split; [exact H1|]. split; [exact H2|].
    rewrite (addWorkout_first_accepted uid raw _ post seg Hu Hr Hsegs
               (rejected_prefix_rejected _) Hseg), map_app, map_map.
    reflexivity.
Qed.

End HandlerCases.

(** ** The submission handler: claims *)

Local Open Scope N_scope.

(** C1: whatever the request and the store, the handler persists nothing
    when a block fails: every call it makes is a call of [next] with an
    error, and it makes at least one; in particular it never calls
    [Workout.insertMany] with the blocks that came before a failing one.
    (No block gets past the call of line 249, so no request at all reaches
    the store.) *)
Theorem nothing_is_persisted insertMany (req : Request) :
  (exists errs, errs <> [] /\ addWorkout insertMany req = map Next errs)
  /\ (forall docs, ~ In (InsertMany docs) (addWorkout insertMany req))
  /\ (forall workouts, ~ In (Json201 workouts) (addWorkout insertMany req)).
Proof.
  destruct (addWorkout_cases insertMany req) as (errs & Hne & _ & H).
  split; [exists errs; split; assumption|]. rewrite H.
  split; intros x Hin; apply in_map_iff in Hin; destruct Hin as (e & Hin & _);
    discriminate Hin.
Qed.

(** Five blocks of which the third has four lines: one call of [next], with
    the exception of the first block. *)
Example five_blocks_trace insertMany :
  addWorkout insertMany (submit five_blocks)
  = [Next (ReferenceError "parseWorkoutLine is not defined")].
Proof. reflexivity. Qed.

(** C3 (the code departs from it): the five-line block of the
    specification is not parsed into an entry.  The call of line 249 throws
    the ReferenceError of the unbound [parseWorkoutLine]; the loop returns
    no entry, the handler passes the exception to [next], and the error
    middleware answers 500. *)
Theorem well_formed_block_throws insertMany :
  rejected spec_block = false
  /\ parseWorkouts spec_block initial
     = ([], inl (ReferenceError "parseWorkoutLine is not defined"))
  /\ addWorkout insertMany (submit spec_block)
     = [Next (ReferenceError "parseWorkoutLine is not defined")]
  /\ ErrorMiddleware.status
       (ErrorMiddleware.errorHandler (ReferenceError "parseWorkoutLine is not defined"))
     = 500.
Proof.
  split; [vm_compute; reflexivity|].
  split; [vm_compute; reflexivity|].
  split; reflexivity.
Qed.

(** C6 (the code departs from it): a block whose weight text is "abc" is
    not reported as a malformed block with its ordinal.  The handler passes
    the ReferenceError of line 249 to [next], which carries no status and
    no ordinal; the test of lines 250-252 that would report the block is
    never reached. *)
Theorem unparsed_weight_throws insertMany :
  rejected bad_weight = false
  /\ addWorkout insertMany (submit bad_weight)
     = [Next (ReferenceError "parseWorkoutLine is not defined")]
  /\ ErrorMiddleware.err_status (ReferenceError "parseWorkoutLine is not defined") = None
  /\ (forall n, ReferenceError "parseWorkoutLine is not defined" <> missing_details n)
  /\ (forall n, ReferenceError "parseWorkoutLine is not defined" <> improper_format n).
Proof.
  split; [vm_compute; reflexivity|].
  split; [reflexivity|]. split; [reflexivity|].
  split; intros n; discriminate.
Qed.

(** C7 (the code departs from it): in the five blocks of [five_blocks] the
    third segment has four lines, and the handler never reports it.  The
    first block throws the ReferenceError of line 249, which ends the loop
    before segment 3 is reached: the only call is [next] with that
    exception. *)
Theorem malformed_block_unreported insertMany :
  (exists seg, nth_error (segments five_blocks) 2 = Some seg /\ rejected seg = true)
  /\ addWorkout insertMany (submit five_blocks)
     = [Next (ReferenceError "parseWorkoutLine is not defined")]
  /\ ~ In (Next (missing_details 3)) (addWorkout insertMany (submit five_blocks)).
Proof.
  split.
  - eexists. split; [vm_compute; reflexivity | vm_compute; reflexivity].
  - split; [reflexivity|].
    change (addWorkout insertMany (submit five_blocks))
      with [Next (ReferenceError "parseWorkoutLine is not defined")].
    intros [H|[]]. discriminate H.
Qed.

(** C8, the claim as stated fails on [";;;"]: the first error raised is the
    "missing details" error of segment 1, not "No valid workouts found". *)
Lemma separators_only_counterexample :
  hd_error (errors (addWorkout accept (submit ";;;"))) = Some (missing_details 1)
  /\ missing_details 1 <> createError 400 "No valid workouts found in the workout string".
Proof.
  split; [vm_compute; reflexivity | discriminate].
Qed.

(** C8, amended: an empty raw string is answered with "Workout string is
    missing"; a non-empty raw string whose segments are all empty after
    trimming raises the "missing details" error of every segment, in order,
    and then "No valid workouts found"; in both cases nothing is inserted
    and no success response is produced. *)
Theorem empty_input_errors insertMany (uid raw : string) :
  uid <> "" ->
  forallb (String.eqb "") (segments raw) = true ->
  addWorkout insertMany {| user_id := Some uid; workoutString := Some raw |}
  = match raw with
    | "" => [Next (createError 400 "Workout string is missing")]
    | _ => (map (fun j => Next (missing_details j))
                (ordinals_from 0 (List.length (segments raw)))
            ++ [Next (createError 400 "No valid workouts found in the workout string")])%list
    end.
Proof.
  intros Hu Hall. unfold addWorkout, addWorkout_try.
  cbv beta iota delta [user_id workoutString].
  destruct uid as [|c u]; [congruence|]. destruct raw as [|c' r]; [reflexivity|].
  unfold try_catch, bind, parseWorkouts.
  rewrite (forEach_empty_segments _ initial Hall).
  reflexivity.
Qed.

Lemma empty_input_errors_witness :
  addWorkout accept {| user_id := Some "u1"; workoutString := Some ";;;" |}
  = match ";;;" with
    | "" => [Next (createError 400 "Workout string is missing")]
    | _ => (map (fun j => Next (missing_details j))
                (ordinals_from 0 (List.length (segments ";;;")))
            ++ [Next (createError 400 "No valid workouts found in the workout string")])%list
    end.
Proof.
  refine (empty_input_errors accept "u1" ";;;" _ _).
  - discriminate.
  - vm_compute. reflexivity.
Defined.

(** C9, the claim as stated fails on [;] followed by a block: the loop does
    not skip the empty first segment, it reports it as workout 1, and the
    submission does not succeed. *)
Lemma leading_separator_counterexample :
  nth_error (segments leading_separator) 0 = Some ""
  /\ addWorkout accept (submit leading_separator)
     = [Next (createError 400 "Workout string is missing details for 1th workout");
        Next (ReferenceError "parseWorkoutLine is not defined")].
Proof.
  split; [vm_compute; reflexivity | reflexivity].
Qed.

Lemma ordinals_from_length (c : N) (n : nat) : List.length (ordinals_from c n) = n.
Proof.
  revert c. induction n as [|n IH]; intros c; [reflexivity|].
  cbn [ordinals_from List.length]. rewrite IH. reflexivity.
Qed.

Lemma nth_error_ordinals {A : Type} (f : N -> A) (c : N) (n k : nat) :
  (k < n)%nat ->
  nth_error (map f (ordinals_from c n)) k = Some (f (c + N.of_nat k + 1)).
Proof.
  revert c k. induction n as [|n IH]; intros c k Hk; [lia|].
  cbn [ordinals_from map]. destruct k as [|k].
  - cbn [nth_error]. f_equal. f_equal. lia.
  - cbn [nth_error]. rewrite IH by lia. f_equal. f_equal. lia.
Qed.

(** The call that the handler makes for a rejected segment which all the
    segments before it are rejected too: it is the call of that position,
    with the "missing details" error of that position. *)
Lemma rejected_segment_call insertMany (uid raw : string) (k : nat) (seg : string) :
  uid <> "" -> raw <> "" ->
  nth_error (segments raw) k = Some seg ->
  rejected seg = true ->
  forallb rejected (firstn k (segments raw)) = true ->
  nth_error (addWorkout insertMany {| user_id := Some uid; workoutString := Some raw |}) k
  = Some (Next (missing_details (N.of_nat k + 1))).
Proof.
  intros Hu Hr Hn Hseg Hpre.
  assert (Hk : (k < List.length (segments raw))%nat).
  { apply nth_error_Some. congruence. }
  destruct (rejected_prefix_split (segments raw)) as [[_ Hall]|(x & post & Hsegs & Hx)].
  - rewrite (addWorkout_all_rejected insertMany uid raw Hu Hr Hall).
    rewrite nth_error_app1 by (rewrite length_map, ordinals_from_length; exact Hk).
    rewrite nth_error_ordinals by exact Hk. reflexivity.
  - set (pre := rejected_prefix (segments raw)) in *.
    assert (Hlen : (k < List.length pre)%nat).
    { destruct (Nat.lt_ge_cases k (List.length pre)) as [H|H]; [exact H|]. exfalso.
      assert (Hin : In x (firstn k (segments raw))).
      { rewrite Hsegs, firstn_app. apply in_or_app.
        destruct (Nat.eq_dec k (List.length pre)) as [E|E].
        - exfalso. rewrite Hsegs, E, nth_error_app2, Nat.sub_diag in Hn by lia.
          cbn [nth_error] in Hn. inversion Hn. congruence.
        - right. destruct (k - List.length pre)%nat as [|j] eqn:Ej; [lia|].
          left. reflexivity. }
      rewrite forallb_forall in Hpre. rewrite (Hpre x Hin) in Hx. discriminate Hx. }
    rewrite (addWorkout_first_accepted insertMany uid raw pre post x Hu Hr Hsegs
               (rejected_prefix_rejected _) Hx).
    rewrite nth_error_app1 by (rewrite length_map, ordinals_from_length; exact Hlen).
    rewrite nth_error_ordinals by exact Hlen. reflexivity.
Qed.

(** C9, amended: the loop runs on every segment it reaches, the empty ones
    included.  A segment that is empty after trimming, when every segment
    before it is rejected too, is not skipped: the call the handler makes at
    its position is [next] with the error "Workout string is missing details
    for Nth workout" of its 1-based position. *)
Theorem empty_segment_is_reported insertMany (uid raw : string) (k : nat) :
  uid <> "" -> raw <> "" ->
  nth_error (segments raw) k = Some "" ->
  forallb rejected (firstn k (segments raw)) = true ->
  nth_error (addWorkout insertMany {| user_id := Some uid; workoutString := Some raw |}) k
  = Some (Next (createError 400 ("Workout string is missing details for "
                                 ++ toString (of_N (N.of_nat k + 1)) ++ "th workout"))).
Proof.
  intros Hu Hr Hn Hpre.
  exact (rejected_segment_call insertMany uid raw k "" Hu Hr Hn eq_refl Hpre).
Qed.

Lemma empty_segment_is_reported_witness :
  nth_error (addWorkout accept {| user_id := Some "u1";
                                  workoutString := Some leading_separator |}) 0
  = Some (Next (createError 400 ("Workout string is missing details for "
                                 ++ toString (of_N (N.of_nat 0 + 1)) ++ "th workout"))).
Proof.
  refine (empty_segment_is_reported accept "u1" leading_separator 0 _ _ _ _).
  - discriminate.
  - discriminate.
  - vm_compute. reflexivity.
  - reflexivity.
Defined.

(** C10 (the code departs from it): a block whose weight line is "72kg",
    without the [#], is not parsed with the first character of the weight
    dropped.  The handler tests the [#] of the first line only, and then
    the call of line 249 throws the ReferenceError: no entry is returned
    and no weight is read. *)
Theorem unmarked_weight_throws insertMany :
  startsWith "#" unmarked_weight = true
  /\ List.length (map trim (split LF unmarked_weight)) = 5%nat
  /\ parseWorkouts unmarked_weight initial
     = ([], inl (ReferenceError "parseWorkoutLine is not defined"))
  /\ addWorkout insertMany (submit unmarked_weight)
     = [Next (ReferenceError "parseWorkoutLine is not defined")].
Proof.
  split; [reflexivity|]. split; [vm_compute; reflexivity|].
  split; [vm_compute; reflexivity | reflexivity].
Qed.

Local Close Scope N_scope.

(** ** Calendar arithmetic *)

Section Calendar.

Local Open Scope Z_scope.

Lemma MonthFromDay_range (d : Z) : 0 <= MonthFromDay d <= 11.
Proof.
  unfold MonthFromDay.
  repeat match goal with |- context [if ?b then _ else _] => destruct b end; lia.
Qed.

(** The date is the day within the year, less the days of the months
    before, plus one. *)
Lemma DateFromDay_DaysBeforeMonth (d : Z) :
  DateFromDay d
  = DayWithinYear d - DaysBeforeMonth (MonthFromDay d) (InLeapYear (YearFromDay d)) + 1.
Proof.
  unfold DateFromDay, MonthFromDay.
  repeat match goal with |- context [if ?b then _ else _] => destruct b end;
    cbn [DaysBeforeMonth]; lia.
Qed.

(** Year, month and date of a day, with the date moved by [j], make the
    day [d + j]: this is how a date past the end of the month carries over. *)
Lemma MakeDay_of_day (d j : Z) :
  MakeDay (YearFromDay d) (MonthFromDay d) (DateFromDay d + j) = d + j.
Proof.
  unfold MakeDay. pose proof (MonthFromDay_range d) as Hm.
  rewrite (Z.div_small (MonthFromDay d) 12) by lia.
  rewrite (Z.mod_small (MonthFromDay d) 12) by lia.
  rewrite Z.add_0_r, DateFromDay_DaysBeforeMonth. unfold DayWithinYear. lia.
Qed.

Lemma climb_ge (fuel : nat) (y d : Z) : y <= climb fuel y d.
Proof.
  revert y. induction fuel as [|f IH]; intros y; simpl; [lia|].
  destruct (DayFromYear (y + 1) <=? d); [|lia].
  specialize (IH (y + 1)). lia.
Qed.

Lemma YearFromDay_ge (d : Z) : -365 <= d -> 1969 <= YearFromDay d.
Proof.
  intros H. unfold YearFromDay.
  match goal with |- _ <= climb ?f ?y d => pose proof (climb_ge f y d) as Hc;
    assert (1969 <= y); [|lia] end.
  destruct (0 <=? d) eqn:E.
  - apply Z.leb_le in E. pose proof (Z.div_pos d 366 E). lia.
  - assert (-1 <= d / 365); [|lia].
    apply Z.div_le_lower_bound; lia.
Qed.

Lemma newDate_of_day (tza d j : Z) :
  -365 <= d ->
  newDate tza (YearFromDay d) (MonthFromDay d) (DateFromDay d + j)
  = (d + j) * msPerDay - tza.
Proof.
  intros H. unfold newDate. pose proof (YearFromDay_ge d H) as Hy.
  replace ((0 <=? YearFromDay d) && (YearFromDay d <=? 99)) with false.
  - rewrite MakeDay_of_day. reflexivity.
  - symmetry. apply andb_false_iff. right. apply Z.leb_gt. lia.
Qed.

Lemma Day_shift (t i : Z) : Day (t - i * 24 * 60 * 60 * 1000) = Day t - i.
Proof.
  unfold Day, msPerDay.
  replace (t - i * 24 * 60 * 60 * 1000) with (t + (- i) * 86400000) by lia.
  rewrite Z.div_add by lia. lia.
Qed.

(** A time value within the day [d] has day number [d]. *)
Lemma Day_within (t d : Z) : d * msPerDay <= t < (d + 1) * msPerDay -> Day t = d.
Proof.
  unfold Day, msPerDay. intros H. symmetry.
  apply (Z.div_unique t 86400000 d (t - d * 86400000)); lia.
Qed.

End Calendar.

(** ** The dashboard *)

Section DashboardFacts.

Local Open Scope Z_scope.

Lemma compare_same (k : string) : String.compare k k = Eq.
Proof.
  pose proof (String.compare_antisym k k) as H.
  destruct (String.compare k k); [reflexivity | discriminate H | discriminate H].
Qed.

Lemma fold_one_group (k : string) (r : list Workout) (acc : Z) :
  forallb (fun w' => String.eqb (dateToString (date w')) k) r = true ->
  fold_left (fun gs w => group_insert (dateToString (date w)) (Dashboard.caloriesBurned w) gs)
            r [(k, acc)]
  = [(k, fold_left (fun a w => a + Dashboard.caloriesBurned w) r acc)].
Proof.
  revert acc. induction r as [|w r IH]; intros acc H; [reflexivity|].
  cbn [forallb] in H. apply andb_prop in H. destruct H as [Hw Hr].
  apply String.eqb_eq in Hw. cbn [fold_left group_insert]. rewrite Hw.
  rewrite compare_same.
  apply IH. exact Hr.
Qed.

(** Documents of one UTC date make one group, which holds their total. *)
Lemma first_total_one_date (ws : list Workout) :
  one_utc_date ws = true -> first_total (group_by_date ws) = sum_calories ws.
Proof.
  destruct ws as [|w r]; [reflexivity|]. intros H.
  unfold group_by_date, sum_calories. cbn [fold_left group_insert one_utc_date] in *.
  rewrite (fold_one_group _ _ _ H), Z.add_0_l. cbn [first_total].
  destruct (Z.eqb_spec (fold_left (fun a w0 => a + Dashboard.caloriesBurned w0) r
                                  (Dashboard.caloriesBurned w)) 0) as [E|E];
    [rewrite E|]; reflexivity.
Qed.

(** When local time is UTC, the workouts of a local day are of one UTC
    date. *)
Lemma utc_zone_one_date (db : Db) (id : string) (d : Z) :
  one_utc_date (entries_of_day 0 db id d) = true.
Proof.
  unfold entries_of_day, matching.
  assert (H : Forall (fun w => Day (date w) = d)
                (filter (fun w => String.eqb (Dashboard.user w) id
                                  && (d * msPerDay - 0 <=? date w)
                                  && (date w <? (d + 1) * msPerDay - 0))
                        (workouts db))).
  { apply Forall_forall. intros w Hw. apply filter_In in Hw. destruct Hw as [_ Hw].
    apply andb_prop in Hw. destruct Hw as [Hw H2]. apply andb_prop in Hw.
    destruct Hw as [_ H1]. apply Z.leb_le in H1. apply Z.ltb_lt in H2.
    apply Day_within. lia. }
  destruct (filter _ (workouts db)) as [|w r]; [reflexivity|].
  apply Forall_cons_iff in H. destruct H as [Hw Hr]. cbn [one_utc_date].
  apply forallb_forall. intros w' Hin. apply String.eqb_eq.
  rewrite Forall_forall in Hr. unfold dateToString. rewrite (Hr w' Hin), Hw.
  reflexivity.
Qed.

(** One turn of the weekly loop, [i] days back. *)
Lemma week_turn_day (tza : Z) (db : Db) (id : string) (now i : Z) :
  0 <= now -> - msPerDay <= tza <= msPerDay -> 0 <= i <= 6 ->
  week_turn tza db id now i
  = (toString (of_Z (DateFromDay (Day (now + tza) - i))) ++ "th",
     first_total (group_by_date (entries_of_day tza db id (Day (now + tza) - i)))).
Proof.
  intros Hnow Htz Hi. unfold week_turn, getDate, getFullYear, getMonth, entries_of_day.
  replace (now - i * 24 * 60 * 60 * 1000 + tza)
    with (now + tza - i * 24 * 60 * 60 * 1000) by lia.
  rewrite Day_shift. set (d := Day (now + tza) - i).
  assert (Hd : -365 <= d).
  { unfold d. assert (-1 <= Day (now + tza)); [|lia].
    unfold Day. apply Z.div_le_lower_bound; unfold msPerDay in *; lia. }
  rewrite (newDate_of_day tza d 1 Hd).
  pose proof (newDate_of_day tza d 0 Hd) as H0.
  rewrite !Z.add_0_r in H0. rewrite H0. reflexivity.
Qed.

End DashboardFacts.

(** ** The dashboard: claims *)


(** 500 calories over 2 workouts today: an average of 250. *)
Example average_of_two_workouts :
  match getUserDashboard 0 sample_db march_first (Some "u1") with
  | Json200 body =>
      totalCaloriesBurnt body = 500%Z /\ totalWorkouts body = 2%Z
      /\ avgCaloriesBurntPerWorkout body = QFinite 250
  | NextError _ _ => False
  end.
Proof. vm_compute. repeat split. Qed.

(** No entry at all: totals and average of 0, and seven zeros for the week. *)
Example average_without_workouts :
  match getUserDashboard 0 empty_db march_first (Some "u1") with
  | Json200 body =>
      totalCaloriesBurnt body = 0%Z /\ totalWorkouts body = 0%Z
      /\ avgCaloriesBurntPerWorkout body = QFinite 0
      /\ weekCaloriesBurned body = [0; 0; 0; 0; 0; 0; 0]%Z
  | NextError _ _ => False
  end.
Proof. vm_compute. repeat split. Qed.

(** C4, the claim as stated fails on the labels: on 1 March 2024 they are
    "24th" to "1th", not the bare day numbers. *)
Lemma week_labels_counterexample :
  match getUserDashboard 0 empty_db march_first (Some "u1") with
  | Json200 body =>
      weeks body = ["24th"; "25th"; "26th"; "27th"; "28th"; "29th"; "1th"]
      /\ weeks body <> ["24"; "25"; "26"; "27"; "28"; "29"; "1"]
  | NextError _ _ => False
  end.
Proof.
  vm_compute. split; [reflexivity | discriminate].
Qed.

(** C4, amended: the weekly series has exactly 7 labels and 7 values, oldest
    first, for the 7 local calendar days that end today; each label is the
    day-of-month number followed by "th"; each value is that day's total
    calories (0 without entries) whenever the day's entries fall on one UTC
    date, which is always so when local time is UTC.  Local time is at a
    fixed offset from UTC, and [now] is not before 1970. *)
Theorem weekly_series (tza : Z) (db : Db) (now : Z) (userId : option string) (id : string) :
  findById db userId = Some id ->
  (0 <= now)%Z -> (- msPerDay <= tza <= msPerDay)%Z ->
  match getUserDashboard tza db now userId with
  | Json200 body =>
      List.length (weeks body) = 7%nat
      /\ List.length (weekCaloriesBurned body) = 7%nat
      /\ forall k : nat, (k < 7)%nat ->
           let day := (Day (now + tza) - 6 + Z.of_nat k)%Z in
           nth k (weeks body) "" = toString (of_Z (DateFromDay day)) ++ "th"
           /\ (one_utc_date (entries_of_day tza db id day) = true \/ tza = 0%Z ->
               nth k (weekCaloriesBurned body) 0%Z
               = sum_calories (entries_of_day tza db id day))
  | NextError _ _ => False
  end.
Proof.
  intros Hid Hnow Htz. unfold getUserDashboard. rewrite Hid.
  cbn [weeks weekCaloriesBurned]. split; [reflexivity|]. split; [reflexivity|].
  intros k Hk. cbn [map].
  rewrite !(week_turn_day tza db id now) by lia.
  do 7 (destruct k as [|k];
        [ cbn [nth fst snd Z.of_nat];
          match goal with
          | |- context [(?D - 6 + 0)%Z] => replace (D - 6 + 0)%Z with (D - 6)%Z by lia
          | |- context [(?D - 6 + Z.pos ?p)%Z] =>
              replace (D - 6 + Z.pos p)%Z with (D - (6 - Z.pos p))%Z by lia
          end;
          cbn [Z.sub Z.opp Z.add Z.pos_sub Pos.pred_double Z.double Z.succ_double Z.pred_double];
          (split;
           [ reflexivity
           | intros [H|H];
             [ apply first_total_one_date; exact H
             | subst tza; apply first_total_one_date, utc_zone_one_date ] ])
        | ]).
  lia.
Qed.

Lemma weekly_series_witness :
  match getUserDashboard 0 sample_db march_first (Some "u1") with
  | Json200 body =>
      List.length (weeks body) = 7%nat
      /\ List.length (weekCaloriesBurned body) = 7%nat
      /\ forall k : nat, (k < 7)%nat ->
           let day := (Day (march_first + 0) - 6 + Z.of_nat k)%Z in
           nth k (weeks body) "" = toString (of_Z (DateFromDay day)) ++ "th"
           /\ (one_utc_date (entries_of_day 0 sample_db "u1" day) = true \/ 0%Z = 0%Z ->
               nth k (weekCaloriesBurned body) 0%Z
               = sum_calories (entries_of_day 0 sample_db "u1" day))
  | NextError _ _ => False
  end.
Proof.
  refine (weekly_series 0 sample_db march_first (Some "u1") "u1" _ _ _).
  - vm_compute. reflexivity.
  - vm_compute. discriminate.
  - vm_compute. split; discriminate.
Defined.


(** ** Strings: trimming and splitting *)

Section Text.

Lemma all_chars_app (p : ascii -> bool) (a b : string) :
  all_chars p (a ++ b) = all_chars p a && all_chars p b.
Proof.
  induction a as [|c a IH]; simpl; [reflexivity|].
  rewrite IH. apply andb_assoc.
Qed.

Lemma all_chars_weaken (p q : ascii -> bool) (s : string) :
  (forall c, p c = true -> q c = true) ->
  all_chars p s = true -> all_chars q s = true.
Proof.
  intros Hpq. induction s as [|c s IH]; simpl; [reflexivity|].
  intros H. apply andb_prop in H. destruct H as [Hc Hs].
  rewrite (Hpq c Hc), (IH Hs). reflexivity.
Qed.

Lemma append_assoc (a b c : string) : (a ++ b) ++ c = a ++ (b ++ c).
Proof.
  induction a as [|x a IH]; simpl; [reflexivity|]. rewrite IH. reflexivity.
Qed.

Lemma append_nil_r (a : string) : a ++ "" = a.
Proof.
  induction a as [|x a IH]; simpl; [reflexivity|]. rewrite IH. reflexivity.
Qed.

Lemma prefix_append (a b : string) : String.prefix a (a ++ b) = true.
Proof.
  induction a as [|x a IH]; simpl.
  - destruct b; reflexivity.
  - destruct (ascii_dec x x) as [_|n]; [exact IH | congruence].
Qed.

(** *** trim *)

Lemma trimEnd_cons (c : ascii) (s : string) :
  trimEnd (String c s)
  = match trimEnd s with
    | "" => if is_white_space c then "" else String c ""
    | r => String c r
    end.
Proof. reflexivity. Qed.

Lemma trimEnd_idempotent (s : string) : trimEnd (trimEnd s) = trimEnd s.
Proof.
  induction s as [|c s IH]; [reflexivity|].
  rewrite trimEnd_cons. destruct (trimEnd s) as [|c' s'] eqn:E.
  - destruct (is_white_space c) eqn:Ec; [reflexivity|].
    rewrite trimEnd_cons. cbn [trimEnd]. rewrite Ec. reflexivity.
  - rewrite trimEnd_cons, IH. reflexivity.
Qed.

(** Trimming the text after a marker, or trimming it again once the marker
    is removed, gives the same text. *)
Lemma trim_after_marker (c : ascii) (s : string) :
  is_white_space c = false ->
  trim (substring1 (trim (String c s))) = trim s.
Proof.
  intros Hc. unfold trim at 2. rewrite trimEnd_cons.
  destruct (trimEnd s) as [|c' s'] eqn:E.
  - rewrite Hc. cbn [trimStart]. rewrite Hc. cbn [substring1].
    unfold trim. rewrite E. reflexivity.
  - cbn [trimStart]. rewrite Hc. cbn [substring1].
    unfold trim. rewrite <- E, trimEnd_idempotent. reflexivity.
Qed.

(** A text that ends with text that trimming leaves alone is left alone at
    its end. *)
Lemma trimEnd_append (a b : string) :
  b <> "" -> trimEnd b = b -> trimEnd (a ++ b) = a ++ b.
Proof.
  intros Hb Hfix. induction a as [|c a IH]; [exact Hfix|].
  cbn [append]. rewrite trimEnd_cons, IH.
  destruct (a ++ b) eqn:E; [|reflexivity].
  destruct a; simpl in E; [congruence | discriminate].
Qed.

Lemma trim_no_white_space (s : string) :
  all_chars (fun c => negb (is_white_space c)) s = true -> trim s = s.
Proof.
  intros H. unfold trim.
  assert (He : trimEnd s = s).
  { induction s as [|c s IH]; [reflexivity|].
    cbn [all_chars] in H. apply andb_prop in H. destruct H as [Hc Hs].
    rewrite trimEnd_cons, (IH Hs). apply negb_true_iff in Hc. rewrite Hc.
    destruct s; reflexivity. }
  rewrite He. destruct s as [|c s]; [reflexivity|].
  cbn [all_chars] in H. apply andb_prop in H. destruct H as [Hc _].
  apply negb_true_iff in Hc. cbn [trimStart]. rewrite Hc. reflexivity.
Qed.

(** *** split *)

Lemma split_from_skip (sep a rest : string) :
  split_from sep (String.length a) (a ++ rest) = split_from sep 0 rest.
Proof.
  induction a as [|c a IH]; [reflexivity|]. exact IH.
Qed.

(** Text free of the first character of the separator goes to the first
    piece. *)
Lemma split_from_free (c0 : ascii) (sep' pre t : string) :
  no_char c0 pre = true ->
  split_from (String c0 sep') 0 (pre ++ t)
  = let (p, ps) := split_from (String c0 sep') 0 t in (pre ++ p, ps).
Proof.
  intros H. induction pre as [|c pre IH].
  - simpl. destruct (split_from (String c0 sep') 0 t). reflexivity.
  - cbn [no_char all_chars] in H. apply andb_prop in H. destruct H as [Hc Hp].
    apply negb_true_iff in Hc. apply Ascii.eqb_neq in Hc.
    cbn [append split_from String.prefix].
    destruct (ascii_dec c0 c) as [e|_]; [congruence|].
    fold (no_char c0 pre) in Hp. rewrite (IH Hp).
    destruct (split_from (String c0 sep') 0 t). reflexivity.
Qed.

Lemma split_from_separator (c0 : ascii) (sep' rest : string) :
  split_from (String c0 sep') 0 (String c0 sep' ++ rest)
  = ("", let (p, ps) := split_from (String c0 sep') 0 rest in p :: ps).
Proof.
  cbn [append split_from].
  change (String c0 (sep' ++ rest)) with (String c0 sep' ++ rest).
  rewrite prefix_append.
  replace (String.length (String c0 sep') - 1) with (String.length sep')
    by (cbn [String.length]; lia).
  rewrite split_from_skip. reflexivity.
Qed.

(** The pieces of [pre ++ sep ++ rest] are [pre] and the pieces of [rest]. *)
Lemma split_cons (c0 : ascii) (sep' pre rest : string) :
  no_char c0 pre = true ->
  split (String c0 sep') (pre ++ String c0 sep' ++ rest)
  = pre :: split (String c0 sep') rest.
Proof.
  intros H. unfold split. rewrite (split_from_free _ _ _ _ H), split_from_separator.
  rewrite append_nil_r. reflexivity.
Qed.

Lemma split_single (c0 : ascii) (sep' s : string) :
  no_char c0 s = true -> split (String c0 sep') s = [s].
Proof.
  intros H. unfold split. rewrite <- (append_nil_r s) at 1.
  rewrite (split_from_free _ _ _ _ H). cbn [split_from]. rewrite append_nil_r. reflexivity.
Qed.

Lemma prefix_nil (s : string) : String.prefix "" s = true.
Proof. destruct s; reflexivity. Qed.

End Text.

(** ** Digits *)

Section Digits.

Local Open Scope N_scope.

(** A decimal digit is one of the ten characters from "0" to "9". *)
Lemma is_digit_cases (c : ascii) :
  is_digit c = true ->
  N_of_ascii c - 48 < 10 /\ c = digit_char (N_of_ascii c - 48)
  /\ radix_digit 10 c = Some (N_of_ascii c - 48)
  /\ is_white_space c = false.
Proof.
  destruct c as [[] [] [] [] [] [] [] []]; intros H; try discriminate H;
    repeat split; reflexivity.
Qed.

Lemma digit_char_is_digit (d : N) : d < 10 -> is_digit (digit_char d) = true.
Proof.
  intros H.
  assert (C : d = 0 \/ d = 1 \/ d = 2 \/ d = 3 \/ d = 4 \/ d = 5 \/ d = 6 \/ d = 7
              \/ d = 8 \/ d = 9) by lia.
  repeat (destruct C as [C|C]; [subst d; reflexivity|]). subst d. reflexivity.
Qed.

Lemma digit_char_value (d : N) : d < 10 -> N_of_ascii (digit_char d) - 48 = d.
Proof.
  intros H.
  assert (C : d = 0 \/ d = 1 \/ d = 2 \/ d = 3 \/ d = 4 \/ d = 5 \/ d = 6 \/ d = 7
              \/ d = 8 \/ d = 9) by lia.
  repeat (destruct C as [C|C]; [subst d; reflexivity|]). subst d. reflexivity.
Qed.

(** A character that is not a digit is not in a digit string. *)
Lemma all_digits_no_char (c : ascii) (s : string) :
  is_digit c = false -> all_digits s = true -> no_char c s = true.
Proof.
  intros Hc. apply all_chars_weaken. intros a Ha.
  destruct (Ascii.eqb_spec a c) as [e|_]; [subst; congruence | reflexivity].
Qed.

Lemma all_digits_no_white_space (s : string) :
  all_digits s = true -> all_chars (fun c => negb (is_white_space c)) s = true.
Proof.
  apply all_chars_weaken. intros a Ha.
  destruct (is_digit_cases a Ha) as (_ & _ & _ & Hw). rewrite Hw. reflexivity.
Qed.

Lemma dec_value_app (acc : N) (a b : string) :
  dec_value acc (a ++ b) = dec_value (dec_value acc a) b.
Proof.
  revert acc. induction a as [|c a IH]; intros acc; [reflexivity|]. apply IH.
Qed.

Lemma digits_fuel_all_digits (f : nat) (n : N) : all_digits (digits_fuel f n) = true.
Proof.
  revert n. induction f as [|f IH]; intros n; [reflexivity|].
  cbn [digits_fuel]. destruct (N.ltb_spec n 10) as [H|H].
  - unfold all_digits. cbn [all_chars]. rewrite (digit_char_is_digit n H). reflexivity.
  - unfold all_digits. rewrite all_chars_app. fold (all_digits (digits_fuel f (n / 10))).
    rewrite IH. cbn [all_chars]. rewrite digit_char_is_digit; [reflexivity|].
    apply N.mod_lt. lia.
Qed.

Lemma digits_fuel_value (f : nat) (n : N) :
  n < 2 ^ N.of_nat f -> dec_value 0 (digits_fuel f n) = n.
Proof.
  revert n. induction f as [|f IH]; intros n H.
  - simpl in H. cbn [digits_fuel dec_value]. lia.
  - cbn [digits_fuel]. destruct (N.ltb_spec n 10) as [H10|H10].
    + cbn [dec_value]. rewrite (digit_char_value n H10). lia.
    + rewrite dec_value_app, IH.
      * cbn [dec_value]. rewrite digit_char_value by (apply N.mod_lt; lia).
        pose proof (N.div_mod n 10). lia.
      * rewrite Nat2N.inj_succ, N.pow_succ_r' in H.
        apply N.Div0.div_lt_upper_bound; lia.
Qed.

Lemma digits_fuel_nonempty (f : nat) (n : N) : digits_fuel (S f) n <> "".
Proof.
  cbn [digits_fuel]. destruct (n <? 10); [discriminate|].
  destruct (digits_fuel f (n / 10)); discriminate.
Qed.

Lemma digits_all_digits (n : N) : all_digits (digits n) = true.
Proof. apply digits_fuel_all_digits. Qed.

Lemma digits_value (n : N) : dec_value 0 (digits n) = n.
Proof.
  apply digits_fuel_value.
  rewrite Nat2N.inj_succ, N2Nat.id.
  destruct n as [|p]; [reflexivity|].
  apply N.log2_spec. reflexivity.
Qed.

(** The digits of a number: a first digit and more digits. *)
Lemma digits_cons (n : N) :
  exists d ds, digits n = String d ds /\ is_digit d = true /\ all_digits ds = true.
Proof.
  pose proof (digits_all_digits n) as H.
  pose proof (digits_fuel_nonempty (N.to_nat (N.log2 n)) n) as Hne.
  fold (digits n) in Hne. destruct (digits n) as [|d ds]; [congruence|].
  unfold all_digits in H. cbn [all_chars] in H. apply andb_prop in H.
  exists d, ds. split; [reflexivity|]. exact H.
Qed.

Lemma dec_value_acc (acc : N) (s : string) :
  dec_value acc s = acc * 10 ^ N.of_nat (String.length s) + dec_value 0 s.
Proof.
  revert acc. induction s as [|c s IH]; intros acc.
  - simpl. lia.
  - cbn [dec_value String.length]. rewrite IH, (IH (10 * 0 + _)).
    rewrite Nat2N.inj_succ, N.pow_succ_r'. lia.
Qed.

Lemma read_digits_all (ds rest : string) (c : nat) (acc : N) :
  all_digits ds = true -> stops_reading rest ->
  read_digits 10 c acc (ds ++ rest) = ((c + String.length ds)%nat, dec_value acc ds, rest).
Proof.
  intros Hd Hr. revert c acc. induction ds as [|a ds IH]; intros c acc.
  - cbn [append String.length dec_value]. rewrite Nat.add_0_r.
    destruct rest as [|x r]; [reflexivity|].
    cbn [read_digits]. unfold stops_reading, is_digit in Hr.
    destruct (radix_digit 10 x); [discriminate | reflexivity].
  - unfold all_digits in Hd. cbn [all_chars] in Hd. apply andb_prop in Hd.
    destruct Hd as [Ha Hds]. destruct (is_digit_cases a Ha) as (_ & _ & Hv & _).
    cbn [append read_digits]. rewrite Hv, (IH Hds).
    cbn [String.length dec_value]. rewrite Nat.add_succ_r. reflexivity.
Qed.

End Digits.


(** ** Numbers and their text *)

Section NumberText.

Local Open Scope N_scope.

Lemma digits_fuel_enough (f f' : nat) (n : N) :
  n < 2 ^ N.of_nat (S f) -> n < 2 ^ N.of_nat (S f') ->
  digits_fuel (S f) n = digits_fuel (S f') n.
Proof.
  revert f' n. induction f as [|f IH]; intros f' n H H'.
  - cbn [digits_fuel]. destruct (N.ltb_spec n 10) as [|H10]; [reflexivity|].
    simpl in H. lia.
  - cbn [digits_fuel]. destruct (N.ltb_spec n 10) as [|H10]; [reflexivity|].
    destruct f' as [|f']; [simpl in H'; lia|].
    f_equal. apply IH.
    + rewrite Nat2N.inj_succ, N.pow_succ_r' in H.
      apply N.Div0.div_lt_upper_bound; lia.
    + rewrite Nat2N.inj_succ, N.pow_succ_r' in H'.
      apply N.Div0.div_lt_upper_bound; lia.
Qed.

Lemma log2_fuel (n : N) : n < 2 ^ N.of_nat (S (N.to_nat (N.log2 n))).
Proof.
  rewrite Nat2N.inj_succ, N2Nat.id.
  destruct n as [|p]; [reflexivity|]. apply N.log2_spec. reflexivity.
Qed.

(** The digits of a number of two digits or more: those of its tenth, then
    its last digit. *)
Lemma digits_step (n : N) :
  10 <= n -> digits n = digits (n / 10) ++ String (digit_char (n mod 10)) "".
Proof.
  intros H. unfold digits at 1. cbn [digits_fuel].
  destruct (N.ltb_spec n 10) as [H10|_]; [lia|].
  f_equal. pose proof (log2_fuel n) as L.
  destruct (N.to_nat (N.log2 n)) as [|f] eqn:E; [simpl in L; lia|].
  apply digits_fuel_enough.
  - rewrite Nat2N.inj_succ, N.pow_succ_r' in L.
    apply N.Div0.div_lt_upper_bound; lia.
  - apply log2_fuel.
Qed.

Lemma length_append (a b : string) :
  String.length (a ++ b) = (String.length a + String.length b)%nat.
Proof.
  induction a as [|c a IH]; [reflexivity|]. cbn [append String.length]. rewrite IH. reflexivity.
Qed.

(** Moving trailing zeros to the exponent keeps the number, its integer
    part and its decimal exponent. *)
Lemma strip_zeros_spec (f : nat) (m : N) (e : Z) :
  m <> 0 ->
  let (s, e') := strip_zeros f m e in
  s <> 0 /\ (e <= e')%Z /\ m = s * 10 ^ Z.to_N (e' - e)
  /\ (Z.of_nat (String.length (digits m)) + e
      = Z.of_nat (String.length (digits s)) + e')%Z.
Proof.
  revert m e. induction f as [|f IH]; intros m e Hm.
  - cbn [strip_zeros]. rewrite Z.sub_diag. simpl. repeat split; lia.
  - cbn [strip_zeros]. destruct (N.eqb_spec (m mod 10) 0) as [Hz|Hz].
    + destruct (N.eqb_spec m 0) as [|_]; [contradiction|]. cbn [negb andb].
      pose proof (N.div_mod m 10) as Hdm.
      assert (H10 : 10 <= m) by lia.
      assert (Hq : m / 10 <> 0) by lia.
      specialize (IH (m / 10) (e + 1)%Z Hq).
      destruct (strip_zeros f (m / 10) (e + 1)) as [s e'].
      destruct IH as (Hs & He & Hv & Hk). repeat split.
      * exact Hs.
      * lia.
      * replace (Z.to_N (e' - e)) with (N.succ (Z.to_N (e' - (e + 1)))) by lia.
        rewrite N.pow_succ_r'. lia.
      * rewrite (digits_step m H10), length_append. cbn [String.length]. lia.
    + cbn [andb]. rewrite Z.sub_diag. simpl. repeat split; lia.
Qed.

Lemma dec_value_bound (s : string) :
  all_digits s = true -> dec_value 0 s < 10 ^ N.of_nat (String.length s).
Proof.
  induction s as [|c s IH]; [intros _; simpl; lia|].
  intros H. unfold all_digits in H. cbn [all_chars] in H. apply andb_prop in H.
  destruct H as [Hc Hs]. destruct (is_digit_cases c Hc) as (Hv & _).
  cbn [dec_value String.length]. rewrite dec_value_acc.
  specialize (IH Hs).
  rewrite Nat2N.inj_succ, N.pow_succ_r'. nia.
Qed.

Lemma zeros_all_digits (j : nat) : all_digits (zeros j) = true.
Proof. induction j as [|j IH]; [reflexivity|]. exact IH. Qed.

Lemma zeros_length (j : nat) : String.length (zeros j) = j.
Proof. induction j as [|j IH]; [reflexivity|]. cbn [zeros String.length]. rewrite IH. reflexivity. Qed.

Lemma zeros_value (j : nat) : dec_value 0 (zeros j) = 0.
Proof. induction j as [|j IH]; [reflexivity|]. exact IH. Qed.

Lemma take_drop (n : nat) (s : string) : take n s ++ drop n s = s.
Proof.
  revert s. induction n as [|n IH]; intros [|c s]; try reflexivity.
  cbn [take drop append]. rewrite IH. reflexivity.
Qed.

Lemma take_all_digits (n : nat) (s : string) :
  all_digits s = true -> all_digits (take n s) = true.
Proof.
  revert s. induction n as [|n IH]; intros [|c s] H; try reflexivity.
  unfold all_digits in *. cbn [take all_chars] in *. apply andb_prop in H.
  destruct H as [Hc Hs]. rewrite Hc, (IH s Hs). reflexivity.
Qed.

Lemma drop_all_digits (n : nat) (s : string) :
  all_digits s = true -> all_digits (drop n s) = true.
Proof.
  revert s. induction n as [|n IH]; intros [|c s] H; try reflexivity; try exact H.
  unfold all_digits in *. cbn [drop all_chars] in *. apply andb_prop in H.
  destruct H as [_ Hs]. exact (IH s Hs).
Qed.

Lemma take_length (n : nat) (s : string) :
  (n <= String.length s)%nat -> String.length (take n s) = n.
Proof.
  revert s. induction n as [|n IH]; intros [|c s] H; try reflexivity.
  - cbn [String.length] in H. lia.
  - cbn [take String.length] in *. rewrite IH; lia.
Qed.

(** The leading digits of a digit string are the digits of a quotient. *)
Lemma take_value (n : nat) (s : string) :
  all_digits s = true -> (n <= String.length s)%nat ->
  dec_value 0 (take n s) = dec_value 0 s / 10 ^ N.of_nat (String.length s - n).
Proof.
  intros Hs Hn.
  pose proof (dec_value_bound (drop n s) (drop_all_digits n s Hs)) as Hb.
  assert (Hl : String.length (drop n s) = (String.length s - n)%nat).
  { pose proof (f_equal String.length (take_drop n s)) as L.
    rewrite length_append, (take_length n s Hn) in L. lia. }
  rewrite Hl in Hb.
  assert (Hv : dec_value 0 s
               = dec_value 0 (take n s) * 10 ^ N.of_nat (String.length s - n)
                 + dec_value 0 (drop n s)).
  { rewrite <- (take_drop n s) at 1. rewrite dec_value_app, dec_value_acc, Hl. reflexivity. }
  apply (N.div_unique _ _ _ (dec_value 0 (drop n s))); [exact Hb|].
  rewrite Hv. lia.
Qed.

(** [parseInt] on a sign, digits, and then nothing or a point. *)
Lemma parseInt_text (neg : bool) (ds rest : string) :
  ds <> "" -> all_digits ds = true ->
  rest = "" \/ (exists r, rest = String "." r) ->
  parseInt ((if neg then "-" else "") ++ ds ++ rest)
  = nearest_double neg (dec_value 0 ds) 0.
Proof.
  intros Hne Hds Hrest. destruct ds as [|d ds]; [congruence|].
  assert (Hstop : stops_reading rest).
  { destruct Hrest as [->|[r ->]]; [exact I | reflexivity]. }
  pose proof (read_digits_all (String d ds) rest 0 0 Hds Hstop) as Hr.
  unfold all_digits in Hds. cbn [all_chars] in Hds. apply andb_prop in Hds.
  destruct Hds as [Hd Hds]. destruct (is_digit_cases d Hd) as (_ & _ & _ & Hw).
  assert (Hhead : strip_sign (trimStart ((if neg then "-" else "") ++ String d ds ++ rest))
                  = (neg, String d ds ++ rest)).
  { destruct neg; cbn [append trimStart].
    - change (is_white_space "-") with false. cbn iota. reflexivity.
    - rewrite Hw.
      destruct d as [[] [] [] [] [] [] [] []]; try discriminate Hd; reflexivity. }
  assert (Hradix : match String d ds ++ rest with
                   | String "0" (String "x" r) => (16, r)
                   | String "0" (String "X" r) => (16, r)
                   | _ => (10, String d ds ++ rest)
                   end = (10, String d ds ++ rest)).
  { cbn [append]. destruct ds as [|x r].
    - cbn [append].
      destruct Hrest as [->|[r ->]];
        destruct d as [[] [] [] [] [] [] [] []]; reflexivity.
    - unfold all_digits in Hds. cbn [all_chars] in Hds. apply andb_prop in Hds.
      destruct Hds as [Hx _]. cbn [append].
      destruct x as [[] [] [] [] [] [] [] []]; try discriminate Hx;
        destruct d as [[] [] [] [] [] [] [] []]; reflexivity. }
  unfold parseInt. rewrite Hhead, Hradix, Hr. reflexivity.
Qed.

(** The integer part does not depend on where the trailing zeros are. *)
Lemma integer_part_normalised (m s : N) (e e' : Z) :
  (e <= e')%Z -> m = s * 10 ^ Z.to_N (e' - e) ->
  integer_part m e = integer_part s e'.
Proof.
  intros He Hm. unfold integer_part.
  assert (HM : Z.of_N m = (Z.of_N s * 10 ^ (e' - e))%Z).
  { rewrite Hm, N2Z.inj_mul, N2Z.inj_pow, Z2N.id by lia. reflexivity. }
  rewrite HM.
  destruct (Z.leb_spec 0 e) as [H0|H0]; destruct (Z.leb_spec 0 e') as [H0'|H0']; try lia.
  - rewrite <- Z.mul_assoc, <- Z.pow_add_r by lia. f_equal. f_equal. lia.
  - replace (e' - e)%Z with (e' + - e)%Z by lia.
    rewrite Z.pow_add_r, Z.mul_assoc by lia.
    apply Z.div_mul. apply Z.pow_nonzero; lia.
  - replace (- e)%Z with ((- e') + (e' - e))%Z by lia.
    rewrite Z.pow_add_r by lia.
    apply Z.div_mul_cancel_r; apply Z.pow_nonzero; lia.
Qed.

Lemma integer_part_integer (v : N) : integer_part v 0 = Z.of_N v.
Proof. unfold integer_part. simpl. lia. Qed.

Lemma integer_part_bound (s : N) (k e' : Z) :
  (Z.of_N s < 10 ^ k)%Z -> (0 <= k)%Z -> (k + e' <= 21)%Z ->
  (integer_part s e' < 10 ^ 21)%Z.
Proof.
  intros Hs Hk Hke. unfold integer_part.
  destruct (Z.leb_spec 0 e') as [He|He].
  - apply Z.lt_le_trans with (10 ^ (k + e'))%Z; [|apply Z.pow_le_mono_r; lia].
    rewrite Z.pow_add_r by lia. apply Z.mul_lt_mono_pos_r; [|exact Hs].
    apply Z.pow_pos_nonneg; lia.
  - destruct (Z.le_gt_cases 0 (k + e')) as [H|H].
    + apply Z.lt_le_trans with (10 ^ (k + e'))%Z; [|apply Z.pow_le_mono_r; lia].
      apply Z.div_lt_upper_bound; [apply Z.pow_pos_nonneg; lia|].
      rewrite <- Z.pow_add_r by lia. replace (- e' + (k + e'))%Z with k by lia. exact Hs.
    + rewrite Z.div_small; [apply Z.pow_pos_nonneg; lia|].
      split; [lia|]. apply Z.lt_le_trans with (10 ^ k)%Z; [exact Hs|].
      apply Z.pow_le_mono_r; lia.
Qed.

(** [parseInt] of the text of a number in decimal notation is the double
    of an integer below 10^21, the integer part of the number. *)
Lemma parseInt_toString (neg : bool) (m : N) (e : Z) :
  decimal_notation (Finite neg m e) = true ->
  exists neg' v,
    parseInt (toString (Finite neg m e)) = nearest_double neg' v 0
    /\ trunc (Finite neg m e) = trunc (Finite neg' v 0)
    /\ v < 10 ^ 21.
Proof.
  intros Hdec. unfold decimal_notation in Hdec. unfold toString.
  destruct (N.eqb_spec m 0) as [Hm|Hm].
  - subst m. exists false, 0. split; [reflexivity|]. split; [|reflexivity].
    unfold trunc, integer_part. cbn [Z.of_N]. rewrite Z.mul_0_l, Zdiv_0_l.
    destruct (0 <=? e)%Z, neg; reflexivity.
  - cbn [orb] in Hdec. apply andb_prop in Hdec. destruct Hdec as [Hlo Hhi].
    apply Z.ltb_lt in Hlo. apply Z.leb_le in Hhi.
    pose proof (strip_zeros_spec (S (N.to_nat (N.log2 m))) m e Hm) as Hz.
    destruct (strip_zeros (S (N.to_nat (N.log2 m))) m e) as [s e'].
    destruct Hz as (Hs & He & Hv & Hk). rewrite Hk in Hlo, Hhi.
    unfold trunc. rewrite (integer_part_normalised m s e e' He Hv).
    pose proof (digits_all_digits s) as Hall.
    pose proof (digits_value s) as Hval.
    pose proof (dec_value_bound (digits s) Hall) as Hbound. rewrite Hval in Hbound.
    destruct (digits_cons s) as (d & ds & E & _ & _).
    set (k := Z.of_nat (String.length (digits s))) in *.
    assert (Hk1 : (1 <= k)%Z) by (unfold k; rewrite E; cbn [String.length]; lia).
    assert (Hsk : (Z.of_N s < 10 ^ k)%Z).
    { unfold k. rewrite <- nat_N_Z. change 10%Z with (Z.of_N 10).
      rewrite <- N2Z.inj_pow. apply N2Z.inj_lt. exact Hbound. }
    pose proof (integer_part_bound s k e' Hsk ltac:(lia) Hhi) as Hip.
    assert (Hclose : forall v, integer_part s e' = Z.of_N v ->
              exists neg' v',
                nearest_double neg v 0 = nearest_double neg' v' 0
                /\ Some (if neg then (- integer_part s e')%Z else integer_part s e')
                   = Some (if neg' then (- integer_part v' 0)%Z else integer_part v' 0)
                /\ v' < 10 ^ 21).
    { intros v Hv'. exists neg, v. split; [reflexivity|]. split.
      - rewrite integer_part_integer, Hv'. reflexivity.
      - rewrite Hv' in Hip. change (10 ^ 21)%Z with (Z.of_N (10 ^ 21)) in Hip.
        apply N2Z.inj_lt. exact Hip. }
    destruct (Z.leb_spec k (k + e')) as [Hb1|Hb1].
    + (* digits followed by zeros *)
      replace (k + e' <=? 21)%Z with true by (symmetry; apply Z.leb_le; lia).
      cbn [andb].
      rewrite <- (append_nil_r ((digits s ++ zeros (Z.to_nat (k + e' - k))))).
      rewrite parseInt_text.
      * apply Hclose. unfold integer_part.
        rewrite dec_value_app, dec_value_acc, Hval, zeros_value, zeros_length.
        destruct (Z.leb_spec 0 e') as [_|]; [|lia].
        rewrite N.add_0_r, N2Z.inj_mul, N2Z.inj_pow.
        do 2 f_equal. lia.
      * rewrite E. discriminate.
      * unfold all_digits. rewrite all_chars_app.
        fold (all_digits (digits s)). rewrite Hall. apply zeros_all_digits.
      * left. reflexivity.
    + cbn [andb]. destruct (Z.ltb_spec 0 (k + e')) as [Hb2|Hb2].
      * (* a point inside the digits *)
        replace (k + e' <=? 21)%Z with true by (symmetry; apply Z.leb_le; lia).
        cbn [andb].
        assert (Hn : (Z.to_nat (k + e') <= String.length (digits s))%nat) by (unfold k in *; lia).
        rewrite parseInt_text.
        -- apply Hclose. unfold integer_part.
           destruct (Z.leb_spec 0 e') as [|_]; [lia|].
           rewrite (take_value _ _ Hall Hn), Hval.
           rewrite N2Z.inj_div, N2Z.inj_pow.
           do 2 f_equal. unfold k in *. lia.
        -- intros Hempty. apply (f_equal String.length) in Hempty.
           rewrite (take_length _ _ Hn) in Hempty. cbn [String.length] in Hempty. lia.
        -- apply take_all_digits. exact Hall.
        -- right. eexists. reflexivity.
      * (* zero, a point, zeros, the digits *)
        replace ((-6 <? k + e') && (k + e' <=? 0))%Z with true
          by (symmetry; apply andb_true_intro; split; [apply Z.ltb_lt | apply Z.leb_le]; lia).
        change ("0." ++ zeros (Z.to_nat (- (k + e'))) ++ digits s)
          with ("0" ++ "." ++ zeros (Z.to_nat (- (k + e'))) ++ digits s).
        cbn [andb]. rewrite parseInt_text.
        -- apply Hclose. unfold integer_part.
           destruct (Z.leb_spec 0 e') as [|_]; [lia|].
           cbn [dec_value]. change (Z.of_N (10 * 0 + (N_of_ascii "0" - 48))) with 0%Z.
           apply Z.div_small. split; [lia|].
           apply Z.lt_le_trans with (10 ^ k)%Z; [exact Hsk|].
           apply Z.pow_le_mono_r; lia.
        -- discriminate.
        -- reflexivity.
        -- right. eexists. reflexivity.
Qed.

End NumberText.




(** ** Rounding to a double *)

Section Rounding.

Local Open Scope N_scope.

(** A natural number up to 2^53 is a double. *)
Lemma round_integer_exact (n : N) : n <= 2 ^ 53 -> round_integer n = Some n.
Proof.
  intros H. unfold round_integer.
  destruct (N.leb_spec n (2 ^ 53)) as [_|H']; [reflexivity | lia].
Qed.

Lemma div_nearest_even_le (a b : N) : div_nearest_even a b <= a / b + 1.
Proof.
  unfold div_nearest_even.
  destruct ((b <? 2 * (a mod b)) || ((2 * (a mod b) =? b) && N.odd (a / b))); lia.
Qed.

(** Below 2^1023 the double nearest to a natural number is finite, and at
    most twice the number. *)
Lemma round_integer_finite (n : N) :
  n < 2 ^ 1023 -> exists v, round_integer n = Some v /\ v <= 2 * n.
Proof.
  intros H. unfold round_integer.
  destruct (N.leb_spec n (2 ^ 53)) as [_|Hbig]; [exists n; split; [reflexivity | lia]|].
  set (d := 2 ^ (N.log2 n - 52)).
  assert (Hn0 : 0 < n) by lia.
  assert (Hd : 0 < d) by (unfold d; apply N.neq_0_lt_0, N.pow_nonzero; lia).
  assert (Hdn : d <= n).
  { apply N.le_trans with (2 ^ N.log2 n).
    - unfold d. apply N.pow_le_mono_r; lia.
    - apply N.log2_spec. exact Hn0. }
  pose proof (div_nearest_even_le n d) as Hq.
  assert (Hv : div_nearest_even n d * d <= 2 * n).
  { apply N.le_trans with ((n / d + 1) * d).
    - apply N.mul_le_mono_r. exact Hq.
    - rewrite N.mul_add_distr_r, N.mul_1_l.
      pose proof (N.Div0.mul_div_le n d). lia. }
  cbv zeta. fold d.
  destruct (N.leb_spec (2 ^ 1024) (div_nearest_even n d * d)) as [Hov|_].
  - exfalso. change (2 ^ 1024) with (2 * 2 ^ 1023) in Hov. lia.
  - eexists. split; [reflexivity | exact Hv].
Qed.

Lemma nearest_double_integer (neg : bool) (n : N) :
  nearest_double neg n 0
  = match round_integer n with
    | Some v => Finite neg v 0
    | None => Infinity neg
    end.
Proof.
  unfold nearest_double. cbn [Z.leb Z.compare Z.to_N]. rewrite N.pow_0_r, N.mul_1_r.
  reflexivity.
Qed.

Lemma nearest_double_exact (neg : bool) (n : N) :
  n <= 2 ^ 53 -> nearest_double neg n 0 = Finite neg n 0.
Proof.
  intros H. rewrite nearest_double_integer, (round_integer_exact n H). reflexivity.
Qed.

Lemma nearest_double_finite (neg : bool) (n : N) :
  n < 2 ^ 1023 -> exists v, nearest_double neg n 0 = Finite neg v 0 /\ v <= 2 * n.
Proof.
  intros H. destruct (round_integer_finite n H) as (v & Hv & Hle).
  exists v. rewrite nearest_double_integer, Hv. split; [reflexivity | exact Hle].
Qed.

(** The product of two integers is exact when it is at most 2^53 and
    neither factor is zero. *)
Lemma mul_exact (a b : bool) (x y : N) :
  x <> 0 -> y <> 0 -> x * y <= 2 ^ 53 ->
  mul (Finite a x 0) (Finite b y 0) = Finite (xorb a b) (x * y) 0.
Proof.
  intros Hx Hy H. unfold mul, to_double.
  assert (x <= x * y) by nia. assert (y <= x * y) by nia.
  rewrite (nearest_double_exact a x), (nearest_double_exact b y) by lia.
  cbn [Z.add]. apply nearest_double_exact. exact H.
Qed.

(** The product of two integers below 2^500 is finite, and at most eight
    times the exact product. *)
Lemma mul_finite (a b : bool) (x y : N) :
  x < 2 ^ 500 -> y < 2 ^ 500 ->
  exists v, mul (Finite a x 0) (Finite b y 0) = Finite (xorb a b) v 0 /\ v <= 8 * (x * y).
Proof.
  intros Hx Hy. unfold mul, to_double.
  assert (Hp : 2 ^ 500 < 2 ^ 1023) by (apply N.pow_lt_mono_r; lia).
  destruct (nearest_double_finite a x ltac:(lia)) as (x' & -> & Hx').
  destruct (nearest_double_finite b y ltac:(lia)) as (y' & -> & Hy').
  cbn [Z.add].
  assert (Hxy : x' * y' <= 4 * (x * y)) by nia.
  assert (Hb : x' * y' < 2 ^ 1023).
  { apply N.le_lt_trans with (4 * (x * y)); [exact Hxy|].
    apply N.lt_le_trans with (4 * (2 ^ 500 * 2 ^ 500)).
    - apply N.mul_lt_mono_pos_l; [lia|]. apply N.mul_lt_mono; assumption.
    - rewrite <- N.pow_add_r. change 4 with (2 ^ 2). rewrite <- N.pow_add_r.
      apply N.pow_le_mono_r; lia. }
  destruct (nearest_double_finite (xorb a b) (x' * y') Hb) as (v & -> & Hv).
  exists v. split; [reflexivity | lia].
Qed.

End Rounding.

(** ** The calorie estimate: claims *)

(** C2, the claim as stated fails on a duration of 0.0000005 with a weight
    of 72: both are finite, the duration truncates to 0, and yet the
    estimate is 5 * 5 * 72 = 1800, because the text of the duration is
    "5e-7" and [parseInt] reads its first digit. *)
Lemma tiny_duration_counterexample :
  isFinite (weight tiny_duration) = true
  /\ isFinite (duration tiny_duration) = true
  /\ trunc (duration tiny_duration) = Some 0%Z
  /\ trunc (weight tiny_duration) = Some 72%Z
  /\ calculateCaloriesBurnt tiny_duration = of_N 1800
  /\ of_N 1800 <> of_N (0 * 5 * 72).
Proof.
  repeat split; try (vm_compute; reflexivity). discriminate.
Qed.

(** The estimate of the specification's example. *)
Example spec_entry_estimate : calculateCaloriesBurnt spec_entry = of_N 10800.
Proof. vm_compute. reflexivity. Qed.

(** Above 2^53 the products are rounded: 99999999999 minutes at 99999999999
    kg give the double 4.9999999999e+22, not 49999999999000000000005. *)
Example huge_entry_estimate :
  calculateCaloriesBurnt huge_entry = Finite false 49999999998999998234624 0
  /\ nearest_double false 49999999999 12 = Finite false 49999999998999998234624 0.
Proof. split; vm_compute; reflexivity. Qed.

Section Estimate.

Local Open Scope N_scope.

(** The two products of [calculateCaloriesBurnt] on the doubles of two
    integers below 10^21, when the exact product is at most 2^53. *)
Lemma estimate_exact (nd nw : bool) (vd vw : N) :
  vd < 10 ^ 21 -> vw < 10 ^ 21 -> vd * 5 * vw <= 2 ^ 53 ->
  mul (mul (nearest_double nd vd 0) (of_N 5)) (nearest_double nw vw 0)
  = Finite (xorb nd nw) (vd * 5 * vw) 0.
Proof.
  intros Hd Hw Hp.
  assert (H21 : 10 ^ 21 < 2 ^ 500) by (vm_compute; reflexivity).
  assert (H1023 : 2 ^ 500 < 2 ^ 1023) by (apply N.pow_lt_mono_r; lia).
  destruct (N.eq_dec vd 0) as [Ed|Ed]; [|destruct (N.eq_dec vw 0) as [Ew|Ew]].
  - subst vd. rewrite (nearest_double_exact nd 0) by lia.
    destruct (nearest_double_finite nw vw ltac:(lia)) as (w' & -> & Hw').
    destruct (mul_finite nd false 0 5 ltac:(lia) ltac:(lia)) as (p & Hmul & Hple).
    unfold of_N. rewrite Hmul.
    destruct (mul_finite (xorb nd false) nw p w' ltac:(lia) ltac:(lia)) as (v & -> & Hv).
    rewrite xorb_false_r. f_equal. lia.
  - subst vw. rewrite (nearest_double_exact nw 0) by lia.
    destruct (nearest_double_finite nd vd ltac:(lia)) as (d' & -> & Hd').
    destruct (mul_finite nd false d' 5 ltac:(lia) ltac:(lia)) as (p & Hmul & Hple).
    unfold of_N. rewrite Hmul.
    assert (Hpb : p < 2 ^ 500).
    { apply N.le_lt_trans with (80 * 10 ^ 21); [lia | vm_compute; reflexivity]. }
    destruct (mul_finite (xorb nd false) nw p 0 Hpb ltac:(lia)) as (v & -> & Hv).
    rewrite xorb_false_r. f_equal. lia.
  - assert (vd <= vd * 5 * vw) by nia. assert (vw <= vd * 5 * vw) by nia.
    assert (vd * 5 <= vd * 5 * vw) by nia.
    rewrite !nearest_double_exact by lia. unfold of_N.
    rewrite (mul_exact nd false vd 5) by lia.
    rewrite (mul_exact (xorb nd false) nw (vd * 5) vw) by lia.
    rewrite xorb_false_r. reflexivity.
Qed.

End Estimate.

(** C2, amended: for a weight and a duration that are zero or of magnitude
    at least 10^-6 and below 10^21 (the numbers whose text is in plain
    decimal notation), the estimate is the duration truncated toward zero,
    times 5, times the weight truncated toward zero, whenever that product
    is of magnitude at most 2^53, where the products of doubles are exact;
    nothing is rounded or clamped there, and a negative sign goes through
    the product. *)
Theorem calories_from_truncated_inputs (d : Details) (minutes kg : Z) :
  decimal_notation (weight d) = true ->
  decimal_notation (duration d) = true ->
  trunc (duration d) = Some minutes ->
  trunc (weight d) = Some kg ->
  (Z.abs (minutes * 5 * kg) <= 2 ^ 53)%Z ->
  trunc (calculateCaloriesBurnt d) = Some (minutes * 5 * kg)%Z.
Proof.
  intros Hw Hd Hm Hk Hbound. unfold calculateCaloriesBurnt.
  destruct (weight d) as [| |nw mw ew]; try discriminate Hw.
  destruct (duration d) as [| |nd md ed]; try discriminate Hd.
  destruct (parseInt_toString nw mw ew Hw) as (nw' & vw & Pw & Tw & Bw).
  destruct (parseInt_toString nd md ed Hd) as (nd' & vd & Pd & Td & Bd).
  rewrite Tw in Hk. rewrite Td in Hm. unfold trunc in Hk, Hm.
  rewrite integer_part_integer in Hk, Hm.
  inversion Hk as [Hkg]. inversion Hm as [Hmin]. clear Hk Hm.
  assert (Hp : (vd * 5 * vw <= 2 ^ 53)%N).
  { apply N2Z.inj_le. rewrite !N2Z.inj_mul. change (Z.of_N 5) with 5%Z.
    change (Z.of_N (2 ^ 53)) with (2 ^ 53)%Z.
    rewrite <- Hkg, <- Hmin in Hbound. destruct nd', nw'; lia. }
  rewrite Pw, Pd, (estimate_exact nd' nw' vd vw Bd Bw Hp).
  unfold trunc. rewrite integer_part_integer, !N2Z.inj_mul.
  change (Z.of_N 5) with 5%Z.
  f_equal. destruct nd', nw'; cbn [xorb]; lia.
Qed.

Lemma calories_from_truncated_inputs_witness :
  trunc (calculateCaloriesBurnt spec_entry) = Some (30 * 5 * 72)%Z.
Proof.
  refine (calories_from_truncated_inputs spec_entry 30 72 _ _ _ _ _).
  - vm_compute. reflexivity.
  - vm_compute. reflexivity.
  - vm_compute. reflexivity.
  - vm_compute. reflexivity.
  - vm_compute. discriminate.
Defined.

(** * Further properties *)

(** ** The parsing loop and the handler, outcome by outcome *)

(** X1: the parsing loop returns only when every segment fails one of the
    two tests of the callback; it has then made one call of [next] for each
    segment, in order, with the error "Workout string is missing details
    for Nth workout" of the segment's position, it has counted every
    segment, and it has added no entry. *)
Theorem loop_returns_after_rejections (raw : string) (t : list Event) (l : Locals) :
  parseWorkouts raw initial = (t, inr (tt, l)) ->
  forallb rejected (segments raw) = true
  /\ t = map (fun j => Next (createError 400 ("Workout string is missing details for "
                                               ++ toString (of_N j) ++ "th workout")))
             (ordinals_from 0 (List.length (segments raw)))
  /\ parsedWorkouts l = []
  /\ count l = N.of_nat (List.length (segments raw)).
Proof.
  intros H. unfold parseWorkouts in H.
  destruct (rejected_prefix_split (segments raw)) as [[_ Hall]|(seg & post & Hsegs & Hseg)].
  - rewrite (forEach_rejected_segments _ initial Hall) in H.
    inversion H. subst. cbn [parsedWorkouts count initial].
    split; [exact Hall|]. split; [reflexivity|]. split; reflexivity.
  - pose proof (rejected_prefix_rejected (segments raw)) as Hpre.
    remember (rejected_prefix (segments raw)) as pre eqn:Epre. clear Epre.
    rewrite Hsegs, (forEach_first_accepted pre post seg initial Hpre Hseg) in H.
    discriminate H.
Qed.

Lemma loop_returns_after_rejections_witness :
  forallb rejected (segments ";;;") = true
  /\ [Next (createError 400 "Workout string is missing details for 1th workout");
      Next (createError 400 "Workout string is missing details for 2th workout");
      Next (createError 400 "Workout string is missing details for 3th workout");
      Next (createError 400 "Workout string is missing details for 4th workout")]
     = map (fun j => Next (createError 400 ("Workout string is missing details for "
                                            ++ toString (of_N j) ++ "th workout")))
           (ordinals_from 0 (List.length (segments ";;;")))
  /\ parsedWorkouts {| parsedWorkouts := []; currentCategory := ""; count := 4 |} = []
  /\ count {| parsedWorkouts := []; currentCategory := ""; count := 4 |}
     = N.of_nat (List.length (segments ";;;")).
Proof.
  refine (loop_returns_after_rejections ";;;" _
            {| parsedWorkouts := []; currentCategory := ""; count := 4 |} _).
  vm_compute. reflexivity.
Defined.

(** X2: the parsing loop is aborted by an exception exactly when some
    segment passes the two tests of the callback (it starts with [#] and
    has at least five lines); the exception is the ReferenceError of the
    call of line 249, whatever the rest of the block says. *)
Theorem loop_aborts_iff_block_accepted (raw : string) :
  match snd (parseWorkouts raw initial) with
  | inl e =>
      e = ReferenceError "parseWorkoutLine is not defined"
      /\ forallb rejected (segments raw) = false
  | inr _ => forallb rejected (segments raw) = true
  end.
Proof.
  unfold parseWorkouts.
  destruct (rejected_prefix_split (segments raw)) as [[_ Hall]|(seg & post & Hsegs & Hseg)].
  - rewrite (forEach_rejected_segments _ initial Hall). exact Hall.
  - pose proof (rejected_prefix_rejected (segments raw)) as Hpre.
    remember (rejected_prefix (segments raw)) as pre eqn:Epre. clear Epre.
    rewrite Hsegs, (forEach_first_accepted pre post seg initial Hpre Hseg).
    cbn [snd]. split; [reflexivity|].
    rewrite forallb_app. cbn [forallb]. rewrite Hseg.
    rewrite andb_false_r. reflexivity.
Qed.

(** X3: for an authenticated request with a non-empty workout string in
    which some segment passes the two tests, the handler reports the
    segments before the first such segment, each with its position, and
    then passes the ReferenceError to [next]; it makes no other call. *)
Theorem accepted_block_ends_submission insertMany (uid raw : string) :
  uid <> "" -> raw <> "" ->
  forallb rejected (segments raw) = false ->
  addWorkout insertMany {| user_id := Some uid; workoutString := Some raw |}
  = (map (fun j => Next (createError 400 ("Workout string is missing details for "
                                          ++ toString (of_N j) ++ "th workout")))
         (ordinals_from 0 (List.length (rejected_prefix (segments raw))))
     ++ [Next (ReferenceError "parseWorkoutLine is not defined")])%list.
Proof.
  intros Hu Hr Hsome.
  destruct (rejected_prefix_split (segments raw)) as [[_ Hall]|(seg & post & Hsegs & Hseg)].
  - rewrite Hall in Hsome. discriminate Hsome.
  - exact (addWorkout_first_accepted insertMany uid raw _ post seg Hu Hr Hsegs
             (rejected_prefix_rejected _) Hseg).
Qed.

Lemma accepted_block_ends_submission_witness :
  addWorkout accept {| user_id := Some "u1"; workoutString := Some leading_separator |}
  = (map (fun j => Next (createError 400 ("Workout string is missing details for "
                                          ++ toString (of_N j) ++ "th workout")))
         (ordinals_from 0 (List.length (rejected_prefix (segments leading_separator))))
     ++ [Next (ReferenceError "parseWorkoutLine is not defined")])%list.
Proof.
  refine (accepted_block_ends_submission accept "u1" leading_separator _ _ _).
  - discriminate.
  - discriminate.
  - vm_compute. reflexivity.
Defined.

(** X4: whatever the request and the store, the handler calls
    [Workout.insertMany] at most once and never with an empty batch, it
    answers 201 only right after a batch the store accepted, with the
    entries of that batch, and every other call it makes is a call of
    [next]; it always makes at least one call. *)
Theorem addWorkout_trace_shape insertMany (req : Request) :
  exists errs tail,
    addWorkout insertMany req = (map Next errs ++ tail)%list
    /\ ((tail = [] /\ errs <> [])
        \/ exists docs,
             docs <> []
             /\ ((insertMany docs = None
                  /\ tail = [InsertMany docs; Json201 (map details docs)])
                 \/ exists e, insertMany docs = Some e
                              /\ tail = [InsertMany docs; Next e])).
Proof.
  destruct (addWorkout_cases insertMany req) as (errs & Hne & _ & H).
  exists errs, []. rewrite app_nil_r. split; [exact H|].
  left. split; [reflexivity | exact Hne].
Qed.

(** X5: a segment that fails one of the two tests, when every segment
    before it fails one too, is reported at its own position: the call the
    handler makes at position k is [next] with the error "Workout string is
    missing details for Nth workout", N being k counted from 1 among all the
    segments. *)
Theorem rejected_segment_ordinal insertMany (uid raw : string) (k : nat) (seg : string) :
  uid <> "" -> raw <> "" ->
  nth_error (segments raw) k = Some seg ->
  rejected seg = true ->
  forallb rejected (firstn k (segments raw)) = true ->
  nth_error (addWorkout insertMany {| user_id := Some uid; workoutString := Some raw |}) k
  = Some (Next (createError 400 ("Workout string is missing details for "
                                 ++ toString (of_N (N.of_nat k + 1)) ++ "th workout"))).
Proof.
  intros Hu Hr Hn Hseg Hpre.
  exact (rejected_segment_call insertMany uid raw k seg Hu Hr Hn Hseg Hpre).
Qed.

Lemma rejected_segment_ordinal_witness :
  nth_error (addWorkout accept {| user_id := Some "u1";
                                  workoutString := Some four_lines_third |}) 2
  = Some (Next (createError 400 ("Workout string is missing details for "
                                 ++ toString (of_N (N.of_nat 2 + 1)) ++ "th workout"))).
Proof.
  refine (rejected_segment_ordinal accept "u1" four_lines_third 2
            ("#Back" ++ LF ++ "#Row" ++ LF ++ "#3sets10reps" ++ LF ++ "#40kg") _ _ _ _ _).
  - discriminate.
  - discriminate.
  - vm_compute. reflexivity.
  - vm_compute. reflexivity.
  - vm_compute. reflexivity.
Defined.

(** ** The errors of a submission and their answers *)

Section SubmissionErrors.

Variable insertMany : list WorkoutDoc -> option Exn.

(** An error passed to [next] is one of the handler's own or a rejection by
    the store. *)
Lemma addWorkout_next_cases (req : Request) (e : Exn) :
  In (Next e) (addWorkout insertMany req) ->
  handler_error e \/ exists docs, insertMany docs = Some e.
Proof.
  intros Hin.
  destruct (addWorkout_cases insertMany req) as (errs & _ & Hall & H).
  rewrite H in Hin. apply in_map_iff in Hin. destruct Hin as (e' & He & Hin).
  inversion He. subst e'. left. rewrite Forall_forall in Hall. exact (Hall e Hin).
Qed.

End SubmissionErrors.

(** X6: the error "Please enter proper format for Nth workout" of line 252
    is never passed to [next] by the handler itself: the call of line 249
    throws whenever it is reached, so the test that guards the error never
    runs.  Only the store could produce such an error. *)
Theorem improper_format_never_reported insertMany (req : Request) (n : N) :
  (forall docs, insertMany docs <> Some (improper_format n)) ->
  ~ In (Next (improper_format n)) (addWorkout insertMany req).
Proof.
  intros Hstore Hin.
  destruct (addWorkout_next_cases insertMany req _ Hin)
    as [[H|[H|[[k H]|[H|H]]]]|[docs H]]; try discriminate H.
  exact (Hstore docs H).
Qed.

Lemma improper_format_never_reported_witness :
  ~ In (Next (improper_format 1))
       (addWorkout accept {| user_id := Some "u1"; workoutString := Some spec_block |}).
Proof.
  refine (improper_format_never_reported accept
            {| user_id := Some "u1"; workoutString := Some spec_block |} 1 _).
  intros docs. discriminate.
Defined.

(** X7: the error middleware answers every error that a submission passes
    to [next] with status 400, 401 or 500 and with the error's own message,
    as long as the rejections of the store carry a message and no status:
    401 only for the missing user, 500 for the ReferenceError and for the
    store. *)
Theorem submission_errors_answered insertMany (req : Request) (e : Exn) :
  (forall docs e', insertMany docs = Some e' ->
                   ErrorMiddleware.err_status e' = None
                   /\ ErrorMiddleware.err_message e' <> "") ->
  In (Next e) (addWorkout insertMany req) ->
  ErrorMiddleware.message (ErrorMiddleware.errorHandler e) = ErrorMiddleware.err_message e
  /\ (ErrorMiddleware.status (ErrorMiddleware.errorHandler e) = 400%N
      \/ (ErrorMiddleware.status (ErrorMiddleware.errorHandler e) = 401%N
          /\ e = createError 401 "Unauthorized")
      \/ (ErrorMiddleware.status (ErrorMiddleware.errorHandler e) = 500%N
          /\ ErrorMiddleware.err_status e = None)).
Proof.
  intros Hstore Hin.
  destruct (addWorkout_next_cases insertMany req _ Hin)
    as [[H|[H|[[k H]|[H|H]]]]|[docs H]]; try subst e.
  - split; [reflexivity|]. right. left. split; reflexivity.
  - split; [reflexivity|]. left. reflexivity.
  - split; [reflexivity|]. left. reflexivity.
  - split; [reflexivity|]. right. right. split; reflexivity.
  - split; [reflexivity|]. left. reflexivity.
  - destruct (Hstore docs e H) as (Hs & Hm).
    unfold ErrorMiddleware.errorHandler. rewrite Hs.
    cbn [ErrorMiddleware.message ErrorMiddleware.status].
    split.
    + destruct (ErrorMiddleware.err_message e); [congruence | reflexivity].
    + right. right. split; reflexivity.
Qed.

Lemma submission_errors_answered_witness :
  ErrorMiddleware.message
    (ErrorMiddleware.errorHandler (ReferenceError "parseWorkoutLine is not defined"))
  = ErrorMiddleware.err_message (ReferenceError "parseWorkoutLine is not defined")
  /\ (ErrorMiddleware.status
        (ErrorMiddleware.errorHandler (ReferenceError "parseWorkoutLine is not defined"))
      = 400%N
      \/ (ErrorMiddleware.status
            (ErrorMiddleware.errorHandler (ReferenceError "parseWorkoutLine is not defined"))
          = 401%N
          /\ ReferenceError "parseWorkoutLine is not defined"
             = createError 401 "Unauthorized")
      \/ (ErrorMiddleware.status
            (ErrorMiddleware.errorHandler (ReferenceError "parseWorkoutLine is not defined"))
          = 500%N
          /\ ErrorMiddleware.err_status (ReferenceError "parseWorkoutLine is not defined")
             = None)).
Proof.
  refine (submission_errors_answered accept (submit five_blocks)
            (ReferenceError "parseWorkoutLine is not defined") _ _).
  - intros docs e' H. discriminate H.
  - left. reflexivity.
Defined.

(** ** The error middleware *)

(** X8: the error middleware never answers with status 0 or with an empty
    message, and never reports success: the status is the error's own or
    500, and the message is the error's own or "Something went wrong". *)
Theorem errorHandler_never_blank (err : Exn) :
  ErrorMiddleware.success (ErrorMiddleware.errorHandler err) = false
  /\ ErrorMiddleware.status (ErrorMiddleware.errorHandler err) <> 0%N
  /\ ErrorMiddleware.message (ErrorMiddleware.errorHandler err) <> ""
  /\ (ErrorMiddleware.status (ErrorMiddleware.errorHandler err) = 500%N
      \/ ErrorMiddleware.err_status err
         = Some (ErrorMiddleware.status (ErrorMiddleware.errorHandler err)))
  /\ (ErrorMiddleware.message (ErrorMiddleware.errorHandler err) = "Something went wrong"
      \/ ErrorMiddleware.err_message err
         = ErrorMiddleware.message (ErrorMiddleware.errorHandler err)).
Proof.
  unfold ErrorMiddleware.errorHandler.
  cbn [ErrorMiddleware.success ErrorMiddleware.status ErrorMiddleware.message].
  split; [reflexivity|]. split; [|split; [|split]].
  - destruct (ErrorMiddleware.err_status err) as [[|p]|]; discriminate.
  - destruct (ErrorMiddleware.err_message err); discriminate.
  - destruct (ErrorMiddleware.err_status err) as [[|p]|];
      [left | right | left]; reflexivity.
  - destruct (ErrorMiddleware.err_message err); [left | right]; reflexivity.
Qed.

(** X9: an error made by [createError] with a status other than 0 and a
    message other than the empty string is answered with exactly that
    status and that message. *)
Theorem errorHandler_createError (s : N) (m : string) :
  s <> 0%N -> m <> "" ->
  ErrorMiddleware.errorHandler (createError s m)
  = {| ErrorMiddleware.success := false;
       ErrorMiddleware.status := s;
       ErrorMiddleware.message := m |}.
Proof.
  intros Hs Hm. unfold ErrorMiddleware.errorHandler, createError.
  cbn [ErrorMiddleware.err_status ErrorMiddleware.err_message].
  destruct s as [|p]; [congruence|]. destruct m as [|c r]; [congruence|]. reflexivity.
Qed.

Lemma errorHandler_createError_witness :
  ErrorMiddleware.errorHandler (createError 404 "User not found")
  = {| ErrorMiddleware.success := false;
       ErrorMiddleware.status := 404;
       ErrorMiddleware.message := "User not found" |}.
Proof.
  refine (errorHandler_createError 404 "User not found" _ _); discriminate.
Defined.


(** ** The day window and the totals of the dashboard *)

Section DayWindow.

Local Open Scope Z_scope.

Variable tza : Z.
Hypothesis tza_bounds : - msPerDay <= tza <= msPerDay.

Lemma local_day_not_before_1969 (t : Z) : 0 <= t -> -365 <= Day (t + tza).
Proof.
  intros H. assert (-1 <= Day (t + tza)); [|lia].
  unfold Day. apply Z.div_le_lower_bound; unfold msPerDay in *; lia.
Qed.

(** The two bounds that the handlers build with [new Date(y, m, d)] and
    [new Date(y, m, d + 1)] from a time value. *)
Lemma day_bounds (t : Z) :
  0 <= t ->
  newDate tza (getFullYear tza t) (getMonth tza t) (getDate tza t)
  = Day (t + tza) * msPerDay - tza
  /\ newDate tza (getFullYear tza t) (getMonth tza t) (getDate tza t + 1)
     = (Day (t + tza) + 1) * msPerDay - tza.
Proof.
  intros H. unfold getFullYear, getMonth, getDate.
  pose proof (local_day_not_before_1969 t H) as Hd.
  rewrite (newDate_of_day tza _ 1 Hd).
  pose proof (newDate_of_day tza _ 0 Hd) as H0. rewrite !Z.add_0_r in H0.
  rewrite H0. split; reflexivity.
Qed.

Lemma in_day_window (t d : Z) :
  (d * msPerDay - tza <=? t) && (t <? (d + 1) * msPerDay - tza) = (Day (t + tza) =? d).
Proof.
  destruct (Z.eqb_spec (Day (t + tza)) d) as [E|E].
  - subst d. unfold Day, msPerDay.
    pose proof (Z.div_mod (t + tza) 86400000 ltac:(lia)) as Hdm.
    pose proof (Z.mod_pos_bound (t + tza) 86400000 ltac:(lia)) as Hb.
    apply andb_true_iff. split; [apply Z.leb_le | apply Z.ltb_lt]; lia.
  - apply not_true_is_false. intros H. apply andb_prop in H. destruct H as [H1 H2].
    apply Z.leb_le in H1. apply Z.ltb_lt in H2. apply E. apply Day_within. lia.
Qed.

Lemma entries_of_day_on_day (db : Db) (id : string) (d : Z) :
  entries_of_day tza db id d = filter (on_day tza id d) (workouts db).
Proof.
  unfold entries_of_day, matching. apply filter_ext. intros w. unfold on_day.
  rewrite <- andb_assoc, in_day_window. reflexivity.
Qed.

Lemma matching_today (db : Db) (id : string) (t : Z) :
  0 <= t ->
  matching db id (newDate tza (getFullYear tza t) (getMonth tza t) (getDate tza t))
           (newDate tza (getFullYear tza t) (getMonth tza t) (getDate tza t + 1))
  = filter (on_day tza id (Day (t + tza))) (workouts db).
Proof.
  intros H. destruct (day_bounds t H) as [-> ->].
  exact (entries_of_day_on_day db id (Day (t + tza))).
Qed.

End DayWindow.

Section Sums.

Local Open Scope Z_scope.

Lemma fold_sum_acc (ws : list Workout) (acc : Z) :
  fold_left (fun a w => a + Dashboard.caloriesBurned w) ws acc = acc + sum_calories ws.
Proof.
  unfold sum_calories. revert acc. induction ws as [|w ws IH]; intros acc; cbn [fold_left].
  - lia.
  - rewrite (IH (acc + _)), (IH (0 + _)). lia.
Qed.

Lemma sum_calories_cons (w : Workout) (ws : list Workout) :
  sum_calories (w :: ws) = Dashboard.caloriesBurned w + sum_calories ws.
Proof.
  unfold sum_calories at 1. cbn [fold_left]. rewrite fold_sum_acc. lia.
Qed.

Lemma sum_calories_app (a b : list Workout) :
  sum_calories (a ++ b)%list = sum_calories a + sum_calories b.
Proof.
  induction a as [|w a IH]; [reflexivity|].
  cbn [app]. rewrite !sum_calories_cons, IH. lia.
Qed.

Lemma filter_absorb {A : Type} (f g : A -> bool) (l : list A) :
  (forall x, f x = true -> g x = true) ->
  filter f (filter g l) = filter f l.
Proof.
  intros H. induction l as [|x l IH]; [reflexivity|]. cbn [filter].
  destruct (g x) eqn:Hg.
  - cbn [filter]. rewrite IH. reflexivity.
  - destruct (f x) eqn:Hf; [rewrite (H x Hf) in Hg; discriminate Hg | exact IH].
Qed.

End Sums.

(** X10: the window that the two handlers build from a time value with
    [new Date(y, m, d)] and [new Date(y, m, d + 1)] holds the time value and
    lasts exactly 24 hours, also when [d + 1] is past the end of the month
    or of the year.  Local time is at a fixed offset from UTC, of a day at
    most, and the time value is not before 1970. *)
Theorem local_day_window (tza t : Z) :
  (- msPerDay <= tza <= msPerDay)%Z -> (0 <= t)%Z ->
  (newDate tza (getFullYear tza t) (getMonth tza t) (getDate tza t) <= t
   /\ t < newDate tza (getFullYear tza t) (getMonth tza t) (getDate tza t + 1)
   /\ newDate tza (getFullYear tza t) (getMonth tza t) (getDate tza t + 1)
      = newDate tza (getFullYear tza t) (getMonth tza t) (getDate tza t) + msPerDay)%Z.
Proof.
  intros Htz Ht. destruct (day_bounds tza Htz t Ht) as [-> ->].
  unfold Day, msPerDay.
  pose proof (Z.div_mod (t + tza) 86400000 ltac:(lia)) as Hdm.
  pose proof (Z.mod_pos_bound (t + tza) 86400000 ltac:(lia)) as Hb.
  lia.
Qed.

(** 31 December 2023, 23:30 at UTC+5:30: the window ends in 2024. *)
Lemma local_day_window_witness :
  (newDate 19800000 (getFullYear 19800000 1704045600000)
           (getMonth 19800000 1704045600000) (getDate 19800000 1704045600000)
   <= 1704045600000
   /\ 1704045600000
      < newDate 19800000 (getFullYear 19800000 1704045600000)
                (getMonth 19800000 1704045600000) (getDate 19800000 1704045600000 + 1)
   /\ newDate 19800000 (getFullYear 19800000 1704045600000)
              (getMonth 19800000 1704045600000) (getDate 19800000 1704045600000 + 1)
      = newDate 19800000 (getFullYear 19800000 1704045600000)
                (getMonth 19800000 1704045600000) (getDate 19800000 1704045600000)
        + msPerDay)%Z.
Proof.
  refine (local_day_window 19800000 1704045600000 _ _).
  - vm_compute. split; discriminate.
  - vm_compute. discriminate.
Defined.

(** X11: for a stored user, [getWorkoutsByDate] lists exactly the stored
    workouts of that user whose local calendar day is the one of the
    requested time value, in stored order, with the sum of their calories;
    without a date it takes the day of the request. *)
Theorem listing_of_day (tza : Z) (db : Db) (now : Z) (userId : option string)
        (queryDate : option Z) (id : string) :
  findById db userId = Some id ->
  (- msPerDay <= tza <= msPerDay)%Z ->
  (0 <= match queryDate with Some t => t | None => now end)%Z ->
  DayListing.getWorkoutsByDate tza db now userId queryDate
  = DayListing.Json200
      {| DayListing.todaysWorkouts :=
           filter (on_day tza id
                     (Day (match queryDate with Some t => t | None => now end + tza)))
                  (workouts db);
         DayListing.totalCaloriesBurnt :=
           sum_calories
             (filter (on_day tza id
                        (Day (match queryDate with Some t => t | None => now end + tza)))
                     (workouts db)) |}.
Proof.
  intros Hid Htz Ht. unfold DayListing.getWorkoutsByDate. rewrite Hid.
  rewrite (matching_today tza Htz db id _ Ht). reflexivity.
Qed.

Lemma listing_of_day_witness :
  DayListing.getWorkoutsByDate 19800000 sample_db march_first (Some "u1")
                               (Some (march_first - 3600000)%Z)
  = DayListing.Json200
      {| DayListing.todaysWorkouts :=
           filter (on_day 19800000 "u1"
                     (Day (match Some (march_first - 3600000)%Z with
                           | Some t => t
                           | None => march_first
                           end + 19800000)))
                  (workouts sample_db);
         DayListing.totalCaloriesBurnt :=
           sum_calories
             (filter (on_day 19800000 "u1"
                        (Day (match Some (march_first - 3600000)%Z with
                              | Some t => t
                              | None => march_first
                              end + 19800000)))
                     (workouts sample_db)) |}.
Proof.
  refine (listing_of_day 19800000 sample_db march_first (Some "u1")
            (Some (march_first - 3600000)%Z) "u1" _ _ _).
  - vm_compute. reflexivity.
  - vm_compute. split; discriminate.
  - vm_compute. discriminate.
Defined.

(** X12: asked without a date, [getWorkoutsByDate] agrees with the
    dashboard of the same instant: the same users are refused with the same
    error, the listed workouts are as many as [totalWorkouts], and the two
    totals of calories are equal. *)
Theorem listing_agrees_with_dashboard (tza : Z) (db : Db) (now : Z) (userId : option string) :
  match DayListing.getWorkoutsByDate tza db now userId None,
        getUserDashboard tza db now userId with
  | DayListing.Json200 listing, Json200 body =>
      DayListing.totalCaloriesBurnt listing = totalCaloriesBurnt body
      /\ Z.of_nat (List.length (DayListing.todaysWorkouts listing)) = totalWorkouts body
  | DayListing.NextError s m, NextError s' m' => s = s' /\ m = m'
  | _, _ => False
  end.
Proof.
  unfold DayListing.getWorkoutsByDate, getUserDashboard.
  destruct (findById db userId) as [id|]; [|split; reflexivity].
  cbn [DayListing.totalCaloriesBurnt DayListing.todaysWorkouts totalCaloriesBurnt totalWorkouts].
  split; [|reflexivity].
  destruct (matching db id _ _) as [|w ws]; reflexivity.
Qed.

(** ** Grouping by category *)

Section CategoryGroups.

Local Open Scope Z_scope.

Lemma category_insert_keys (k : string) (v : Z) (gs : list (string * Z)) :
  map fst (category_insert k v gs)
  = if existsb (String.eqb k) (map fst gs) then map fst gs else (map fst gs ++ [k])%list.
Proof.
  induction gs as [|[k' v'] r IH]; [reflexivity|].
  cbn [category_insert map fst existsb].
  destruct (String.eqb k k'); [reflexivity|].
  cbn [orb map fst]. rewrite IH.
  destruct (existsb (String.eqb k) (map fst r)); reflexivity.
Qed.

Lemma existsb_eqb_In (k : string) (l : list string) :
  existsb (String.eqb k) l = true <-> In k l.
Proof.
  rewrite existsb_exists. split.
  - intros (x & Hin & E). apply String.eqb_eq in E. subst x. exact Hin.
  - intros H. exists k. split; [exact H | apply String.eqb_refl].
Qed.

Lemma category_insert_NoDup (k : string) (v : Z) (gs : list (string * Z)) :
  NoDup (map fst gs) -> NoDup (map fst (category_insert k v gs)).
Proof.
  intros H. rewrite category_insert_keys.
  destruct (existsb (String.eqb k) (map fst gs)) eqn:E; [exact H|].
  apply NoDup_app; [exact H | constructor; [intros [] | constructor] |].
  intros x Hx [<-|[]]. apply existsb_eqb_In in Hx. rewrite Hx in E. discriminate E.
Qed.

Lemma category_insert_In (k c : string) (v : Z) (gs : list (string * Z)) :
  In c (map fst (category_insert k v gs)) <-> c = k \/ In c (map fst gs).
Proof.
  rewrite category_insert_keys.
  destruct (existsb (String.eqb k) (map fst gs)) eqn:E.
  - apply existsb_eqb_In in E. split; [intros H; right; exact H|].
    intros [->|H]; assumption.
  - rewrite in_app_iff. cbn [In]. split.
    + intros [H|[H|[]]]; [right; exact H | left; symmetry; exact H].
    + intros [H|H]; [right; left; symmetry; exact H | left; exact H].
Qed.

(** The value of each group after an insertion, from a description [f] of
    the values before it. *)
Lemma category_insert_values (f : string -> Z) (k : string) (v : Z) (gs : list (string * Z)) :
  NoDup (map fst gs) ->
  (~ In k (map fst gs) -> f k = 0) ->
  Forall (fun g => snd g = f (fst g)) gs ->
  Forall (fun g => snd g = f (fst g) + (if String.eqb k (fst g) then v else 0))
         (category_insert k v gs).
Proof.
  induction gs as [|[k' v'] r IH]; intros Hnd Hnew Hall.
  - cbn [category_insert]. constructor; [|constructor]. cbn [fst snd].
    rewrite String.eqb_refl, Hnew; [lia | intros []].
  - cbn [category_insert]. cbn [map fst] in Hnd, Hnew.
    apply NoDup_cons_iff in Hnd. destruct Hnd as [Hk' Hnd].
    apply Forall_cons_iff in Hall. cbn [fst snd] in Hall. destruct Hall as [Hv' Hall].
    destruct (String.eqb_spec k k') as [E|E].
    + subst k'. constructor.
      * cbn [fst snd]. rewrite String.eqb_refl. lia.
      * rewrite Forall_forall in *. intros g Hg. rewrite (Hall g Hg).
        destruct (String.eqb_spec k (fst g)) as [E|_]; [|lia].
        exfalso. apply Hk'. rewrite E. apply in_map. exact Hg.
    + constructor.
      * cbn [fst snd]. destruct (String.eqb_spec k k') as [E'|_]; [congruence | lia].
      * apply IH; [exact Hnd | | exact Hall].
        intros H. apply Hnew. cbn [In]. intros [H'|H']; [congruence | exact (H H')].
Qed.

Lemma category_total_snoc (c : string) (done : list Workout) (w : Workout) :
  category_total c (done ++ [w])%list
  = category_total c done
    + (if String.eqb (Dashboard.category w) c then Dashboard.caloriesBurned w else 0).
Proof.
  unfold category_total. rewrite filter_app, sum_calories_app. cbn [filter].
  destruct (String.eqb (Dashboard.category w) c); [|reflexivity].
  rewrite sum_calories_cons. unfold sum_calories at 2. cbn [fold_left]. lia.
Qed.

Lemma category_total_absent (c : string) (ws : list Workout) :
  (forall w, In w ws -> Dashboard.category w <> c) -> category_total c ws = 0.
Proof.
  intros H. unfold category_total.
  replace (filter (fun w => String.eqb (Dashboard.category w) c) ws) with (@nil Workout);
    [reflexivity|].
  symmetry. induction ws as [|w ws IH]; [reflexivity|]. cbn [filter].
  destruct (String.eqb_spec (Dashboard.category w) c) as [E|_].
  - exfalso. exact (H w (or_introl eq_refl) E).
  - apply IH. intros w' Hin. apply H. right. exact Hin.
Qed.

(** The groups after the workouts [done]: one for each of their
    categories, each with the calories of its category. *)
Lemma group_by_category_fold (ws done : list Workout) (gs : list (string * Z)) :
  NoDup (map fst gs) ->
  (forall c, In c (map fst gs) <-> exists w, In w done /\ Dashboard.category w = c) ->
  Forall (fun g => snd g = category_total (fst g) done) gs ->
  let gs' := fold_left (fun gs w => category_insert (Dashboard.category w)
                                                    (Dashboard.caloriesBurned w) gs) ws gs in
  NoDup (map fst gs')
  /\ (forall c, In c (map fst gs')
                <-> exists w, In w (done ++ ws)%list /\ Dashboard.category w = c)
  /\ Forall (fun g => snd g = category_total (fst g) (done ++ ws)%list) gs'.
Proof.
  revert done gs. induction ws as [|w ws IH]; intros done gs Hnd Hkeys Hvals.
  - cbn [fold_left]. rewrite app_nil_r. repeat split; try assumption; apply Hkeys.
  - cbn [fold_left].
    replace (done ++ w :: ws)%list with ((done ++ [w]) ++ ws)%list
      by (rewrite <- app_assoc; reflexivity).
    apply IH.
    + apply category_insert_NoDup. exact Hnd.
    + intros c. rewrite category_insert_In, Hkeys. split.
      * intros [->|(w' & Hin & E)].
        -- exists w. split; [apply in_or_app; right; left; reflexivity | reflexivity].
        -- exists w'. split; [apply in_or_app; left; exact Hin | exact E].
      * intros (w' & Hin & E). apply in_app_or in Hin. destruct Hin as [Hin|[<-|[]]].
        -- right. exists w'. split; assumption.
        -- left. symmetry. exact E.
    + pose proof (category_insert_values (fun c => category_total c done)
                    (Dashboard.category w) (Dashboard.caloriesBurned w) gs Hnd) as H.
      cbv beta in H.
      assert (Hnew : ~ In (Dashboard.category w) (map fst gs) ->
                     category_total (Dashboard.category w) done = 0).
      { intros Hno. apply category_total_absent. intros w' Hin E.
        apply Hno. apply Hkeys. exists w'. split; assumption. }
      specialize (H Hnew Hvals).
      apply Forall_impl with (2 := H). intros g Hg. rewrite Hg, category_total_snoc.
      reflexivity.
Qed.

End CategoryGroups.

Section PieChart.

Local Open Scope Z_scope.

Lemma category_insert_sum (k : string) (v : Z) (gs : list (string * Z)) :
  fold_right Z.add 0 (map snd (category_insert k v gs))
  = fold_right Z.add 0 (map snd gs) + v.
Proof.
  induction gs as [|[k' v'] r IH]; cbn [category_insert map snd fold_right]; [lia|].
  destruct (String.eqb k k'); cbn [map snd fold_right]; [lia|]. rewrite IH. lia.
Qed.

Lemma group_by_category_sum (ws : list Workout) (gs : list (string * Z)) :
  fold_right Z.add 0
    (map snd (fold_left (fun gs w => category_insert (Dashboard.category w)
                                                     (Dashboard.caloriesBurned w) gs) ws gs))
  = fold_right Z.add 0 (map snd gs) + sum_calories ws.
Proof.
  revert gs. induction ws as [|w ws IH]; intros gs; cbn [fold_left].
  - unfold sum_calories. cbn [fold_left]. lia.
  - rewrite IH, category_insert_sum, sum_calories_cons. lia.
Qed.

Lemma index_from_fst {A : Type} (i : nat) (l : list A) :
  map fst (index_from i l) = seq i (List.length l).
Proof.
  revert i. induction l as [|x l IH]; intros i; [reflexivity|].
  cbn [index_from map fst List.length seq]. rewrite IH. reflexivity.
Qed.

Lemma index_from_snd {A : Type} (i : nat) (l : list A) : map snd (index_from i l) = l.
Proof.
  revert i. induction l as [|x l IH]; intros i; [reflexivity|].
  cbn [index_from map snd]. rewrite IH. reflexivity.
Qed.

End PieChart.

(** X13: the pie chart of the dashboard has one slice for each category
    among the user's workouts of the local day, and no other: the ids count
    up from 0, the labels are distinct, the value of a slice is the sum of
    the calories of that category, and the values add up to
    [totalCaloriesBurnt]. *)
Theorem pie_chart_slices (tza : Z) (db : Db) (now : Z) (userId : option string) (uid : string) :
  findById db userId = Some uid ->
  (- msPerDay <= tza <= msPerDay)%Z -> (0 <= now)%Z ->
  match getUserDashboard tza db now userId with
  | Json200 body =>
      map Dashboard.id (pieChartData body) = seq 0 (List.length (pieChartData body))
      /\ NoDup (map label (pieChartData body))
      /\ (forall c, In c (map label (pieChartData body))
                    <-> exists w, In w (filter (on_day tza uid (Day (now + tza))) (workouts db))
                                  /\ Dashboard.category w = c)
      /\ Forall (fun s => value s
                          = category_total (label s)
                              (filter (on_day tza uid (Day (now + tza))) (workouts db)))
                (pieChartData body)
      /\ fold_right Z.add 0%Z (map value (pieChartData body)) = totalCaloriesBurnt body
  | NextError _ _ => False
  end.
Proof.
  intros Hid Htz Hnow. unfold getUserDashboard. rewrite Hid.
  cbn [pieChartData totalCaloriesBurnt].
  rewrite (matching_today tza Htz db uid now Hnow).
  set (today := filter (on_day tza uid (Day (now + tza))) (workouts db)).
  destruct (group_by_category_fold today [] [] (NoDup_nil _)) as (Hnd & Hkeys & Hvals).
  { intros c. split; [intros [] | intros (w & [] & _)]. }
  { constructor. }
  cbn [app] in Hkeys, Hvals. fold (group_by_category today) in Hnd, Hkeys, Hvals.
  set (cats := group_by_category today) in *.
  assert (Hl : map label (map (fun ic : nat * (string * Z) =>
                                 {| Dashboard.id := fst ic; value := snd (snd ic);
                                    label := fst (snd ic) |}) (index_from 0 cats))
               = map fst cats).
  { rewrite map_map. cbn [label]. rewrite <- (map_map snd fst), index_from_snd. reflexivity. }
  assert (Hv : map value (map (fun ic : nat * (string * Z) =>
                                 {| Dashboard.id := fst ic; value := snd (snd ic);
                                    label := fst (snd ic) |}) (index_from 0 cats))
               = map snd cats).
  { rewrite map_map. cbn [value]. rewrite <- (map_map snd snd), index_from_snd. reflexivity. }
  rewrite Hl, Hv. repeat split.
  - rewrite map_map. cbn [Dashboard.id]. rewrite index_from_fst, !length_map.
    rewrite <- (length_map fst (index_from 0 cats)), index_from_fst, length_seq. reflexivity.
  - exact Hnd.
  - apply Hkeys.
  - apply Hkeys.
  - apply Forall_map. cbn [value label].
    rewrite <- (index_from_snd 0 cats) in Hvals. rewrite Forall_map in Hvals. exact Hvals.
  - unfold cats, group_by_category. rewrite group_by_category_sum. cbn [map fold_right].
    destruct today as [|w ws]; reflexivity.
Qed.

Lemma pie_chart_slices_witness :
  match getUserDashboard 0 sample_db march_first (Some "u1") with
  | Json200 body =>
      map Dashboard.id (pieChartData body) = seq 0 (List.length (pieChartData body))
      /\ NoDup (map label (pieChartData body))
      /\ (forall c, In c (map label (pieChartData body))
                    <-> exists w, In w (filter (on_day 0 "u1" (Day (march_first + 0)))
                                               (workouts sample_db))
                                  /\ Dashboard.category w = c)
      /\ Forall (fun s => value s
                          = category_total (label s)
                              (filter (on_day 0 "u1" (Day (march_first + 0)))
                                      (workouts sample_db)))
                (pieChartData body)
      /\ fold_right Z.add 0%Z (map value (pieChartData body)) = totalCaloriesBurnt body
  | NextError _ _ => False
  end.
Proof.
  refine (pie_chart_slices 0 sample_db march_first (Some "u1") "u1" _ _ _).
  - vm_compute. reflexivity.
  - vm_compute. split; discriminate.
  - vm_compute. discriminate.
Defined.

Section WeekOnly.

Local Open Scope Z_scope.

Lemma on_day_in_week (tza : Z) (uid : string) (now d : Z) (w : Workout) :
  Day (now + tza) - 6 <= d <= Day (now + tza) ->
  on_day tza uid d w = true -> in_week tza uid now w = true.
Proof.
  intros Hd H. unfold on_day in H. unfold in_week.
  apply andb_prop in H. destruct H as [Hu He]. apply Z.eqb_eq in He.
  rewrite Hu, He. cbn [andb]. apply andb_true_iff.
  split; [apply Z.leb_le | apply Z.leb_le]; lia.
Qed.

Lemma filter_on_day_in_week (tza : Z) (uid : string) (now d : Z) (ws : list Workout) :
  Day (now + tza) - 6 <= d <= Day (now + tza) ->
  filter (on_day tza uid d) (filter (in_week tza uid now) ws)
  = filter (on_day tza uid d) ws.
Proof.
  intros Hd. apply filter_absorb. intros w. apply on_day_in_week. exact Hd.
Qed.

End WeekOnly.

(** X14: with local time at a fixed offset from UTC (no daylight saving),
    of a day at most, and the instant not before 1970, the dashboard of a
    user depends on the stored workouts only through those of that user
    whose local day is one of the seven that end today: the other workouts,
    of other users or of other days, can be removed from the store without
    changing the answer. *)
Theorem dashboard_reads_own_week (tza : Z) (db : Db) (now : Z) (userId : option string)
        (uid : string) :
  findById db userId = Some uid ->
  (- msPerDay <= tza <= msPerDay)%Z -> (0 <= now)%Z ->
  getUserDashboard tza db now userId
  = getUserDashboard tza {| users := users db;
                            workouts := filter (in_week tza uid now) (workouts db) |}
                     now userId.
Proof.
  intros Hid Htz Hnow. unfold getUserDashboard.
  change (findById {| users := users db;
                      workouts := filter (in_week tza uid now) (workouts db) |} userId)
    with (findById db userId).
  rewrite Hid. cbn [map].
  rewrite !(week_turn_day tza _ uid now) by lia.
  rewrite !(matching_today tza Htz _ uid now Hnow).
  rewrite !(entries_of_day_on_day tza).
  cbn [workouts].
  rewrite !(filter_on_day_in_week tza uid now) by lia.
  reflexivity.
Qed.

Lemma dashboard_reads_own_week_witness :
  getUserDashboard 0 sample_db march_first (Some "u1")
  = getUserDashboard 0 {| users := users sample_db;
                          workouts := filter (in_week 0 "u1" march_first)
                                             (workouts sample_db) |}
                     march_first (Some "u1").
Proof.
  refine (dashboard_reads_own_week 0 sample_db march_first (Some "u1") "u1" _ _ _).
  - vm_compute. reflexivity.
  - vm_compute. split; discriminate.
  - vm_compute. discriminate.
Defined.


(** ** Registration and login *)

Section Accounts.

Lemma findOne_app (users more : list Auth.User) (e : string) :
  Auth.findOne (users ++ more)%list e
  = match Auth.findOne users e with
    | Some u => Some u
    | None => Auth.findOne more e
    end.
Proof.
  unfold Auth.findOne. induction users as [|u users IH]; [reflexivity|].
  cbn [app find]. destruct (String.eqb (Auth.email u) e); [reflexivity | exact IH].
Qed.

Lemma findOne_None (users : list Auth.User) (e : string) :
  Auth.findOne users e = None <-> ~ In e (map Auth.email users).
Proof.
  unfold Auth.findOne. induction users as [|u users IH]; cbn [find map In].
  - split; [intros _ [] | reflexivity].
  - destruct (String.eqb_spec (Auth.email u) e) as [E|E].
    + split; [discriminate | intros H; exfalso; apply H; left; exact E].
    + rewrite IH. split; [intros H [H'|H']; [exact (E H') | exact (H H')]|].
      intros H H'. apply H. right. exact H'.
Qed.

Lemma findOne_Some (users : list Auth.User) (e : string) (u : Auth.User) :
  Auth.findOne users e = Some u -> In u users /\ Auth.email u = e.
Proof.
  unfold Auth.findOne. intros H. apply find_some in H. destruct H as [Hin E].
  apply String.eqb_eq in E. split; assumption.
Qed.

End Accounts.

(** X15: a registration with an email that a stored user already has is
    refused with 409 "Email is already in use." and leaves the collection
    as it was. *)
Theorem register_duplicate_email hashSync sign (users : list Auth.User) (salt id : string)
        (now : Z) (body : Auth.RegisterBody) :
  In (Auth.reg_email body) (map Auth.email users) ->
  Auth.UserRegister hashSync sign users salt id now body
  = (Auth.NextError 409 "Email is already in use.", users).
Proof.
  intros Hin. unfold Auth.UserRegister.
  destruct (Auth.findOne users (Auth.reg_email body)) as [u|] eqn:E; [reflexivity|].
  apply findOne_None in E. exfalso. exact (E Hin).
Qed.

Lemma register_duplicate_email_witness :
  Auth.UserRegister plain_hash plain_sign [ann] "salt2" "id2" march_first
    {| Auth.reg_email := "ann@example.org"; Auth.reg_password := "other";
       Auth.reg_name := "Ann B"; Auth.reg_img := "" |}
  = (Auth.NextError 409 "Email is already in use.", [ann]).
Proof.
  refine (register_duplicate_email plain_hash plain_sign [ann] "salt2" "id2" march_first
            {| Auth.reg_email := "ann@example.org"; Auth.reg_password := "other";
               Auth.reg_name := "Ann B"; Auth.reg_img := "" |} _).
  vm_compute. left. reflexivity.
Defined.

(** X16: registration keeps the emails of the collection distinct, and it
    keeps every stored document: the collection after it is the one before
    it, followed by at most one new document. *)
Theorem register_keeps_emails_distinct hashSync sign (users : list Auth.User)
        (salt id : string) (now : Z) (body : Auth.RegisterBody) :
  NoDup (map Auth.email users) ->
  NoDup (map Auth.email (snd (Auth.UserRegister hashSync sign users salt id now body)))
  /\ exists added,
       snd (Auth.UserRegister hashSync sign users salt id now body) = (users ++ added)%list
       /\ (List.length added <= 1)%nat.
Proof.
  intros Hnd. unfold Auth.UserRegister.
  destruct (Auth.findOne users (Auth.reg_email body)) as [u|] eqn:E; cbn [snd].
  - split; [exact Hnd|]. exists []. rewrite app_nil_r. split; [reflexivity | cbn; lia].
  - split.
    + rewrite map_app. cbn [map Auth.email]. apply findOne_None in E.
      apply NoDup_app; [exact Hnd | constructor; [intros [] | constructor] |].
      intros x Hx [<-|[]]. exact (E Hx).
    + eexists. split; [reflexivity | cbn; lia].
Qed.

Lemma register_keeps_emails_distinct_witness :
  NoDup (map Auth.email
             (snd (Auth.UserRegister plain_hash plain_sign [ann] "salt2" "id2" march_first
                                     bob_registers)))
  /\ exists added,
       snd (Auth.UserRegister plain_hash plain_sign [ann] "salt2" "id2" march_first
                              bob_registers)
       = ([ann] ++ added)%list
       /\ (List.length added <= 1)%nat.
Proof.
  refine (register_keeps_emails_distinct plain_hash plain_sign [ann] "salt2" "id2"
            march_first bob_registers _).
  vm_compute. constructor; [intros [] | constructor].
Defined.

(** X17: after a registration that succeeds, a login with the same email
    and password, at any later instant, succeeds and returns the user
    document that the registration returned, with a token signed for the
    same id at the instant of the login, provided that [compareSync]
    accepts a password against its own hash. *)
Theorem register_then_login hashSync compareSync sign (users : list Auth.User)
        (salt id : string) (now later : Z) (body : Auth.RegisterBody) :
  ~ In (Auth.reg_email body) (map Auth.email users) ->
  compareSync (Auth.reg_password body) (hashSync (Auth.reg_password body) salt) = true ->
  exists user,
    fst (Auth.UserRegister hashSync sign users salt id now body)
    = Auth.Json200 (sign id now) user
    /\ Auth.UserLogin compareSync sign
         (snd (Auth.UserRegister hashSync sign users salt id now body)) later
         {| Auth.login_email := Auth.reg_email body;
            Auth.login_password := Auth.reg_password body |}
       = Auth.Json200 (sign id later) user.
Proof.
  intros Hnew Hcmp. apply findOne_None in Hnew. unfold Auth.UserRegister.
  rewrite Hnew. cbn [fst snd]. eexists. split; [reflexivity|].
  unfold Auth.UserLogin. cbn [Auth.login_email Auth.login_password].
  rewrite findOne_app, Hnew. unfold Auth.findOne. cbn [find Auth.email].
  rewrite String.eqb_refl. cbn [Auth.password Auth._id]. rewrite Hcmp. reflexivity.
Qed.

Lemma register_then_login_witness :
  exists user,
    fst (Auth.UserRegister plain_hash plain_sign [ann] "salt2" "id2" march_first
                           bob_registers)
    = Auth.Json200 (plain_sign "id2" march_first) user
    /\ Auth.UserLogin plain_compare plain_sign
         (snd (Auth.UserRegister plain_hash plain_sign [ann] "salt2" "id2" march_first
                                 bob_registers))
         (march_first + 3600000)%Z
         {| Auth.login_email := Auth.reg_email bob_registers;
            Auth.login_password := Auth.reg_password bob_registers |}
       = Auth.Json200 (plain_sign "id2" (march_first + 3600000)%Z) user.
Proof.
  refine (register_then_login plain_hash plain_compare plain_sign [ann] "salt2" "id2"
            march_first (march_first + 3600000)%Z bob_registers _ _).
  - vm_compute. intros [H|[]]. discriminate H.
  - vm_compute. reflexivity.
Defined.

(** X18: a registration changes the outcome of no login with another
    email: such a login gets the same answer, at the same instant, with the
    collection after the registration as with the one before. *)
Theorem register_leaves_other_logins hashSync compareSync sign (users : list Auth.User)
        (salt id : string) (now later : Z) (body : Auth.RegisterBody)
        (creds : Auth.LoginBody) :
  Auth.login_email creds <> Auth.reg_email body ->
  Auth.UserLogin compareSync sign
    (snd (Auth.UserRegister hashSync sign users salt id now body)) later creds
  = Auth.UserLogin compareSync sign users later creds.
Proof.
  intros Hne. unfold Auth.UserRegister.
  destruct (Auth.findOne users (Auth.reg_email body)) as [u|]; [reflexivity|].
  cbn [snd]. unfold Auth.UserLogin. rewrite findOne_app.
  destruct (Auth.findOne users (Auth.login_email creds)) as [u|]; [reflexivity|].
  unfold Auth.findOne. cbn [find Auth.email].
  destruct (String.eqb_spec (Auth.reg_email body) (Auth.login_email creds)) as [E|_];
    [congruence | reflexivity].
Qed.

Lemma register_leaves_other_logins_witness :
  Auth.UserLogin plain_compare plain_sign
    (snd (Auth.UserRegister plain_hash plain_sign [ann] "salt2" "id2" march_first
                            bob_registers))
    (march_first + 3600000)%Z
    {| Auth.login_email := "ann@example.org"; Auth.login_password := "secret" |}
  = Auth.UserLogin plain_compare plain_sign [ann] (march_first + 3600000)%Z
      {| Auth.login_email := "ann@example.org"; Auth.login_password := "secret" |}.
Proof.
  refine (register_leaves_other_logins plain_hash plain_compare plain_sign [ann]
            "salt2" "id2" march_first (march_first + 3600000)%Z bob_registers
            {| Auth.login_email := "ann@example.org"; Auth.login_password := "secret" |} _).
  vm_compute. discriminate.
Defined.

(** X19: a login succeeds only for a stored user who has the email of the
    request and whose stored hash [compareSync] accepts for the password of
    the request; the token is the one signed for the id of that user at
    the instant of the request. *)
Theorem login_success_is_checked compareSync sign (users : list Auth.User) (now : Z)
        (creds : Auth.LoginBody) (token : string) (user : Auth.User) :
  Auth.UserLogin compareSync sign users now creds = Auth.Json200 token user ->
  In user users
  /\ Auth.email user = Auth.login_email creds
  /\ compareSync (Auth.login_password creds) (Auth.password user) = true
  /\ token = sign (Auth._id user) now.
Proof.
  unfold Auth.UserLogin. intros H.
  destruct (Auth.findOne users (Auth.login_email creds)) as [u|] eqn:E; [|discriminate H].
  destruct (compareSync (Auth.login_password creds) (Auth.password u)) eqn:Hc;
    [|discriminate H].
  inversion H. subst. apply findOne_Some in E. destruct E as [Hin He].
  repeat split; assumption.
Qed.

Lemma login_success_is_checked_witness :
  In ann [ann]
  /\ Auth.email ann
     = Auth.login_email {| Auth.login_email := "ann@example.org";
                           Auth.login_password := "secret" |}
  /\ plain_compare
       (Auth.login_password {| Auth.login_email := "ann@example.org";
                               Auth.login_password := "secret" |})
       (Auth.password ann) = true
  /\ plain_sign "id1" march_first = plain_sign (Auth._id ann) march_first.
Proof.
  refine (login_success_is_checked plain_compare plain_sign [ann] march_first
            {| Auth.login_email := "ann@example.org"; Auth.login_password := "secret" |}
            (plain_sign "id1" march_first) ann _).
  vm_compute. reflexivity.
Defined.


(** ** Cutting the workout string *)

Section Cutting.

Lemma prefix_drop (a r : string) :
  String.prefix a r = true -> r = a ++ drop (String.length a) r.
Proof.
  revert r. induction a as [|c a IH]; intros r H; [destruct r; reflexivity|].
  destruct r as [|c' r]; [discriminate H|]. cbn [String.prefix] in H.
  destruct (ascii_dec c c') as [E|E]; [|discriminate H]. subst c'.
  cbn [append String.length drop]. rewrite <- (IH r H). reflexivity.
Qed.

Lemma join_cons_char (sep : string) (c : ascii) (p : string) (ps : list string) :
  join sep (String c p :: ps) = String c (join sep (p :: ps)).
Proof. destruct ps; reflexivity. Qed.

Lemma split_from_join (c0 : ascii) (sep' s : string) (k : nat) :
  join (String c0 sep') (fst (split_from (String c0 sep') k s)
                         :: snd (split_from (String c0 sep') k s))
  = drop k s.
Proof.
  revert k. induction s as [|c r IH]; intros k; [destruct k; reflexivity|].
  destruct k as [|k].
  - cbn [split_from drop].
    destruct (String.prefix (String c0 sep') (String c r)) eqn:Hp.
    + cbn [fst snd].
      specialize (IH (String.length (String c0 sep') - 1)%nat).
      destruct (split_from (String c0 sep') (String.length (String c0 sep') - 1) r)
        as [p ps].
      cbn [fst snd] in IH.
      change (join (String c0 sep') ("" :: p :: ps))
        with ("" ++ String c0 sep' ++ join (String c0 sep') (p :: ps)).
      rewrite IH.
      cbn [String.prefix] in Hp. destruct (ascii_dec c0 c) as [E|E]; [|discriminate Hp].
      subst c0. cbn [String.length Nat.sub append]. rewrite Nat.sub_0_r.
      rewrite <- (prefix_drop sep' r Hp). reflexivity.
    + specialize (IH O). destruct (split_from (String c0 sep') 0 r) as [p ps].
      cbn [fst snd] in *. rewrite join_cons_char, IH. destruct r; reflexivity.
  - cbn [split_from drop]. apply IH.
Qed.

Lemma join_characters (s : string) :
  join "" (map (fun c => String c "") (list_ascii_of_string s)) = s.
Proof.
  induction s as [|c r IH]; [reflexivity|]. cbn [list_ascii_of_string map].
  destruct r as [|c' r']; [reflexivity|].
  cbn [list_ascii_of_string map] in *. cbn [join] in *. rewrite IH. reflexivity.
Qed.

Lemma trimStart_idempotent (s : string) : trimStart (trimStart s) = trimStart s.
Proof.
  induction s as [|c r IH]; [reflexivity|]. cbn [trimStart].
  destruct (is_white_space c) eqn:E; [exact IH|]. cbn [trimStart]. rewrite E. reflexivity.
Qed.

Lemma trimEnd_trimStart (s : string) : trimEnd (trimStart s) = trimStart (trimEnd s).
Proof.
  induction s as [|c r IH]; [reflexivity|]. cbn [trimStart]. rewrite trimEnd_cons.
  destruct (is_white_space c) eqn:E.
  - rewrite IH. destruct (trimEnd r) as [|c' r']; [reflexivity|].
    cbn [trimStart]. rewrite E. reflexivity.
  - rewrite trimEnd_cons. destruct (trimEnd r) as [|c' r']; rewrite ?E; cbn [trimStart];
      rewrite E; reflexivity.
Qed.

Lemma trim_idempotent (s : string) : trim (trim s) = trim s.
Proof.
  unfold trim. rewrite trimEnd_trimStart, trimStart_idempotent, trimEnd_idempotent.
  reflexivity.
Qed.

Lemma all_chars_trimStart (p : ascii -> bool) (s : string) :
  all_chars p s = true -> all_chars p (trimStart s) = true.
Proof.
  induction s as [|c r IH]; intros H; [reflexivity|]. cbn [trimStart].
  destruct (is_white_space c); [|exact H].
  cbn [all_chars] in H. apply andb_prop in H. apply IH, H.
Qed.

Lemma all_chars_trimEnd (p : ascii -> bool) (s : string) :
  all_chars p s = true -> all_chars p (trimEnd s) = true.
Proof.
  induction s as [|c r IH]; intros H; [reflexivity|]. rewrite trimEnd_cons.
  cbn [all_chars] in H. apply andb_prop in H. destruct H as [Hc Hr].
  specialize (IH Hr). destruct (trimEnd r) as [|c' r'].
  - destruct (is_white_space c); [reflexivity|]. cbn [all_chars]. rewrite Hc. reflexivity.
  - cbn [all_chars] in *. rewrite Hc. exact IH.
Qed.

(** Cutting at one character: the pieces are free of it, and there is one
    more piece than occurrences. *)
Lemma split_from_char (c : ascii) (s : string) :
  Forall (fun p => no_char c p = true)
         (fst (split_from (String c "") 0 s) :: snd (split_from (String c "") 0 s))
  /\ List.length (snd (split_from (String c "") 0 s)) = count_char c s.
Proof.
  induction s as [|a r IH].
  - split; [repeat constructor | reflexivity].
  - cbn [split_from String.prefix count_char String.length Nat.sub].
    destruct IH as [Hall Hlen].
    destruct (split_from (String c "") 0 r) as [p ps]. cbn [fst snd] in *.
    destruct (ascii_dec c a) as [E|E].
    + subst a. rewrite prefix_nil, Ascii.eqb_refl. cbn [fst snd List.length].
      split; [constructor; [reflexivity | exact Hall] | rewrite Hlen; reflexivity].
    + cbn [fst snd]. destruct (Ascii.eqb_spec a c) as [E'|_]; [congruence|].
      split; [|exact Hlen].
      apply Forall_cons_iff in Hall. destruct Hall as [Hp Hps].
      constructor; [|exact Hps]. unfold no_char in *. cbn [all_chars]. rewrite Hp.
      destruct (Ascii.eqb_spec a c) as [E'|_]; [congruence | reflexivity].
Qed.

End Cutting.

(** X20: [split] loses nothing but the separators: joining the pieces with
    the separator gives the text back, for every separator and every text
    (also the empty ones). *)
Theorem split_then_join (sep s : string) : join sep (split sep s) = s.
Proof.
  unfold split. destruct sep as [|c0 sep']; [apply join_characters|].
  pose proof (split_from_join c0 sep' s 0) as H.
  destruct (split_from (String c0 sep') 0 s) as [p ps]. cbn [fst snd] in H.
  rewrite H. destruct s; reflexivity.
Qed.

(** X21: the segments that the parsing loop of [addWorkout] runs on are one
    more than the semicolons of the workout string; none of them holds a
    semicolon, and each is trimmed already. *)
Theorem segments_of_workout_string (raw : string) :
  List.length (segments raw) = S (count_char ";" raw)
  /\ Forall (fun seg => no_char ";" seg = true /\ trim seg = seg) (segments raw).
Proof.
  unfold segments, split.
  destruct (split_from_char ";" raw) as [Hall Hlen].
  destruct (split_from ";" 0 raw) as [p ps]. cbn [fst snd] in *.
  split; [rewrite length_map; cbn [List.length]; rewrite Hlen; reflexivity|].
  apply Forall_map. apply Forall_impl with (2 := Hall). intros seg Hseg.
  split; [|apply trim_idempotent].
  unfold trim. apply all_chars_trimStart, all_chars_trimEnd. exact Hseg.
Qed.


(** ** Numbers outside plain decimal notation *)

Section ExponentNotation.

Local Open Scope N_scope.

Lemma parseInt_one_digit (neg : bool) (d : ascii) (rest : string) :
  is_digit d = true ->
  (exists r, rest = String "e" r) \/ (exists r, rest = String "." r) ->
  parseInt ((if neg then "-" else "") ++ String d rest) = Finite neg (N_of_ascii d - 48) 0.
Proof.
  intros Hd Hrest.
  assert (Hstop : stops_reading rest).
  { destruct Hrest as [[r ->]|[r ->]]; reflexivity. }
  pose proof (read_digits_all (String d "") rest 0 0) as Hr.
  cbn [append String.length dec_value Nat.add] in Hr.
  unfold all_digits in Hr. cbn [all_chars] in Hr. rewrite Hd in Hr.
  specialize (Hr eq_refl Hstop).
  destruct (is_digit_cases d Hd) as (_ & _ & _ & Hw).
  assert (Hhead : strip_sign (trimStart ((if neg then "-" else "") ++ String d rest))
                  = (neg, String d rest)).
  { destruct neg; cbn [append trimStart].
    - change (is_white_space "-") with false. cbn iota. reflexivity.
    - rewrite Hw.
      destruct d as [[] [] [] [] [] [] [] []]; try discriminate Hd; reflexivity. }
  assert (Hradix : match String d rest with
                   | String "0" (String "x" r) => (16, r)
                   | String "0" (String "X" r) => (16, r)
                   | _ => (10, String d rest)
                   end = (10, String d rest)).
  { destruct Hrest as [[r ->]|[r ->]];
      destruct d as [[] [] [] [] [] [] [] []]; reflexivity. }
  unfold parseInt. rewrite Hhead, Hradix, Hr. cbn [Nat.add String.length].
  destruct (is_digit_cases d Hd) as (Hlt & _).
  change (10 * 0 + (N_of_ascii d - 48)) with (N_of_ascii d - 48).
  apply nearest_double_exact.
  apply N.le_trans with 10; [lia | vm_compute; discriminate].
Qed.

Lemma leading_digit_head (s : N) (d : ascii) (r : string) :
  digits s = String d r -> N_of_ascii d - 48 = leading_digit s.
Proof.
  intros H. unfold leading_digit.
  pose proof (take_value 1 (digits s) (digits_all_digits s)) as Ht.
  rewrite digits_value, H in Ht. cbn [String.length take dec_value] in Ht.
  rewrite H. cbn [String.length]. rewrite <- Ht by lia. lia.
Qed.

Lemma leading_digit_scaled (m s : N) (j : N) :
  s <> 0 -> m = s * 10 ^ j ->
  N.of_nat (String.length (digits m)) = N.of_nat (String.length (digits s)) + j ->
  leading_digit m = leading_digit s.
Proof.
  intros Hs Hm Hlen. unfold leading_digit.
  destruct (digits_cons s) as (d & ds & Hd & _).
  assert (Hk : (1 <= String.length (digits s))%nat) by (rewrite Hd; cbn; lia).
  replace (N.of_nat (String.length (digits m) - 1))
    with (N.of_nat (String.length (digits s) - 1) + j) by lia.
  rewrite Hm, N.pow_add_r.
  apply N.Div0.div_mul_cancel_r. apply N.pow_nonzero. lia.
Qed.

(** The text of a number outside plain decimal notation starts with its
    first digit, and [parseInt] stops after it. *)
Lemma parseInt_exponent_notation (neg : bool) (m : N) (e : Z) :
  decimal_notation (Finite neg m e) = false ->
  parseInt (toString (Finite neg m e)) = Finite neg (leading_digit m) 0
  /\ leading_digit m < 10.
Proof.
  intros Hdec. unfold decimal_notation in Hdec. apply orb_false_elim in Hdec.
  destruct Hdec as [Hm Hn]. unfold toString. rewrite Hm.
  apply N.eqb_neq in Hm.
  pose proof (strip_zeros_spec (S (N.to_nat (N.log2 m))) m e Hm) as Hs.
  destruct (strip_zeros (S (N.to_nat (N.log2 m))) m e) as [s e'].
  destruct Hs as (Hs0 & Hee & Hms & Hlen).
  rewrite Hlen in Hn.
  set (k := Z.of_nat (String.length (digits s))) in *.
  destruct (digits_cons s) as (d & r & Hds & Hd & Hr).
  assert (Hk : (1 <= k)%Z) by (unfold k; rewrite Hds; cbn [String.length]; lia).
  assert (Hout : (k + e' <= -6 \/ 21 < k + e')%Z).
  { apply andb_false_iff in Hn. destruct Hn as [Hn|Hn].
    - apply Z.ltb_ge in Hn. left. exact Hn.
    - apply Z.leb_gt in Hn. right. exact Hn. }
  replace ((k <=? k + e')%Z && (k + e' <=? 21)%Z) with false.
  2:{ symmetry. apply andb_false_iff. destruct Hout as [H|H];
        [left; apply Z.leb_gt; lia | right; apply Z.leb_gt; lia]. }
  replace ((0 <? k + e')%Z && (k + e' <=? 21)%Z) with false.
  2:{ symmetry. apply andb_false_iff. destruct Hout as [H|H];
        [left; apply Z.ltb_ge; lia | right; apply Z.leb_gt; lia]. }
  replace ((-6 <? k + e')%Z && (k + e' <=? 0)%Z) with false.
  2:{ symmetry. apply andb_false_iff. destruct Hout as [H|H];
        [left; apply Z.ltb_ge; lia | right; apply Z.leb_gt; lia]. }
  cbv zeta. rewrite Hds.
  assert (Hlead : N_of_ascii d - 48 = leading_digit m).
  { rewrite (leading_digit_head s d r Hds). symmetry.
    apply (leading_digit_scaled m s (Z.to_N (e' - e)) Hs0 Hms).
    unfold k in Hlen. lia. }
  rewrite <- Hlead. split; [|destruct (is_digit_cases d Hd) as (Hlt & _); exact Hlt].
  destruct r as [|c r'].
  - apply parseInt_one_digit; [exact Hd | left; eexists; reflexivity].
  - apply parseInt_one_digit; [exact Hd | right; eexists; reflexivity].
Qed.

Lemma mul_NaN_r (x : Number) : mul x NaN = NaN.
Proof. unfold mul. destruct (to_double x); reflexivity. Qed.

(** The two products of [calculateCaloriesBurnt] on the doubles of two
    integers below 10^21 do not overflow. *)
Lemma estimate_finite (nd nw : bool) (vd vw : N) :
  vd < 10 ^ 21 -> vw < 10 ^ 21 ->
  exists neg v,
    mul (mul (nearest_double nd vd 0) (of_N 5)) (nearest_double nw vw 0) = Finite neg v 0.
Proof.
  intros Hd Hw.
  assert (H21 : 10 ^ 21 < 2 ^ 500) by (vm_compute; reflexivity).
  assert (H1023 : 2 ^ 500 < 2 ^ 1023) by (apply N.pow_lt_mono_r; lia).
  destruct (nearest_double_finite nd vd ltac:(lia)) as (d' & -> & Hd').
  destruct (nearest_double_finite nw vw ltac:(lia)) as (w' & -> & Hw').
  destruct (mul_finite nd false d' 5 ltac:(lia) ltac:(lia)) as (p & Hmul & Hple).
  unfold of_N. rewrite Hmul.
  assert (Hpb : p < 2 ^ 500).
  { apply N.le_lt_trans with (80 * 10 ^ 21); [lia | vm_compute; reflexivity]. }
  destruct (mul_finite (xorb nd false) nw p w' Hpb ltac:(lia)) as (v & -> & _).
  eexists. eexists. reflexivity.
Qed.

End ExponentNotation.

(** X22: the estimate of [calculateCaloriesBurnt] is NaN exactly when the
    weight or the duration of the entry is NaN or an infinity; otherwise it
    is a finite integer.  It is never an infinity: the integers that
    [parseInt] reads are below 10^21, and their products, rounded to
    doubles, stay far below the largest double. *)
Theorem calories_finite_or_NaN (d : Details) :
  match calculateCaloriesBurnt d with
  | NaN => isFinite (weight d) && isFinite (duration d) = false
  | Infinity _ => False
  | Finite _ _ e => e = 0%Z /\ isFinite (weight d) && isFinite (duration d) = true
  end.
Proof.
  assert (Hread : forall neg m e, exists neg' v,
             parseInt (toString (Finite neg m e)) = nearest_double neg' v 0
             /\ (v < 10 ^ 21)%N).
  { intros neg m e. destruct (decimal_notation (Finite neg m e)) eqn:Hdec.
    - destruct (parseInt_toString neg m e Hdec) as (neg' & v & H & _ & Hv).
      exists neg', v. split; assumption.
    - destruct (parseInt_exponent_notation neg m e Hdec) as [H Hlt].
      exists neg, (leading_digit m). rewrite H. split.
      + symmetry. apply nearest_double_exact.
        apply N.le_trans with 10%N; [lia | vm_compute; discriminate].
      + apply N.lt_trans with 10%N; [exact Hlt | vm_compute; reflexivity]. }
  unfold calculateCaloriesBurnt.
  destruct (duration d) as [|nd|nd md ed].
  - destruct (weight d); reflexivity.
  - destruct nd; destruct (weight d); reflexivity.
  - destruct (Hread nd md ed) as (nd' & vd & -> & Hvd).
    destruct (weight d) as [|nw|nw mw ew].
    + change (parseInt (toString NaN)) with NaN. rewrite mul_NaN_r. reflexivity.
    + replace (parseInt (toString (Infinity nw))) with NaN by (destruct nw; reflexivity).
      rewrite mul_NaN_r. reflexivity.
    + destruct (Hread nw mw ew) as (nw' & vw & -> & Hvw).
      destruct (estimate_finite nd' nw' vd vw Hvd Hvw) as (neg & v & ->).
      split; reflexivity.
Qed.

(** X23: a duration outside plain decimal notation (not zero, and of
    magnitude below 10^-6 or at least 10^21) counts in the estimate as its
    first significant digit, with its sign: [parseInt] reads the text of the
    number and stops at the point or at the [e] of the exponent. *)
Theorem duration_in_exponent_notation (d : Details) (neg : bool) (m : N) (e : Z) :
  duration d = Finite neg m e ->
  decimal_notation (Finite neg m e) = false ->
  calculateCaloriesBurnt d
  = mul (mul (Finite neg (leading_digit m) 0) (of_N 5)) (parseInt (toString (weight d))).
Proof.
  intros Hd Hdec. unfold calculateCaloriesBurnt.
  destruct (parseInt_exponent_notation neg m e Hdec) as [H _].
  rewrite Hd, H. reflexivity.
Qed.

Lemma duration_in_exponent_notation_witness :
  calculateCaloriesBurnt tiny_duration
  = mul (mul (Finite false (leading_digit 5) 0) (of_N 5))
        (parseInt (toString (weight tiny_duration))).
Proof.
  refine (duration_in_exponent_notation tiny_duration false 5 (-7) _ _).
  - vm_compute. reflexivity.
  - vm_compute. reflexivity.
Defined.

